(** * PING Python SDK client: message construction, serialization and signing

    A shallow embedding of [sdk/python/ping/client.py].

    Conventions of the embedding.
    - A Python [str] is a [string]; each character stands for the code point
      of the same number (0..255).  [bytes] are [list byte].
    - A Python value of type [Any] is a [pyval].  A [dict] is an association
      list in insertion order, which is the order [json.dumps] writes it in;
      keys are [str], as in the annotation [Dict[str, Any]].
    - A method of [PingClient] is a function from the client before the call
      to the outcome ([Ok] or [Raise]), the client after the call and the
      list of effects the call performed, in order.  An exception keeps the
      assignments made before it, as in Python.
    - What the call reads from outside the program (whether PyNaCl could be
      imported, the random seed, the clock, the answer of the HTTP service)
      is an [env].  The two Ed25519 primitives of libsodium are the fields of
      the class [Ed25519]. *)

From Stdlib Require Import String Ascii List ZArith NArith Lia Bool.
From Stdlib Require Import Strings.Byte DecimalString.
Import ListNotations.

Local Open Scope list_scope.
Local Open Scope string_scope.

Set Warnings "-register-all".

Definition bytes := list byte.

(** ** Exceptions *)

Inductive exn : Type :=
| PingError (message : string) (status_code : Z)
| TypeError (message : string)
| ValueError (message : string)
| BinasciiError (message : string)
| KeyError (key : string)
| AttributeError (message : string)
| ExternalError (class_name message : string).

Inductive result (A : Type) : Type :=
| Ok (a : A)
| Raise (e : exn).
Arguments Ok {A} a.
Arguments Raise {A} e.

(** [PingError] is the only exception class the package defines and exports. *)
Definition is_PingError (e : exn) : bool :=
  match e with PingError _ _ => true | _ => false end.

(** ** Python values *)

Inductive pyval : Type :=
| PyNone
| PyBool (b : bool)
| PyInt (z : Z)
| PyFloat (repr : string)            (* a float, by its [float.__repr__] *)
| PyStr (s : string)
| PyList (items : list pyval)
| PyDict (items : list (string * pyval))
| PyOther (type_name : string)       (* an object json cannot encode: set, bytes, ... *)
| PyCycle.                           (* a container that is one of its own ancestors *)

Definition dict := list (string * pyval).

Fixpoint dict_get (k : string) (d : dict) : option pyval :=
  match d with
  | [] => None
  | (k', v) :: d' => if String.eqb k k' then Some v else dict_get k d'
  end.

Definition opt_str (o : option string) : pyval :=
  match o with Some s => PyStr s | None => PyNone end.

(** [bool(v)], used by [if not x] and [x or y]. *)
Definition truthy (v : pyval) : bool :=
  match v with
  | PyNone => false
  | PyBool b => b
  | PyInt z => negb (z =? 0)%Z
  | PyFloat r => negb (String.eqb r "0.0" || String.eqb r "-0.0")
  | PyStr s => negb (String.eqb s EmptyString)
  | PyList l => match l with [] => false | _ => true end
  | PyDict d => match d with [] => false | _ => true end
  | PyOther _ => true
  | PyCycle => true
  end.

(** [==] on values: lists position by position, dicts as mappings (same
    number of keys, and every key of the left one bound to an equal value
    in the right one), whatever the insertion order. *)
Fixpoint py_eq (a b : pyval) {struct a} : bool :=
  match a, b with
  | PyNone, PyNone => true
  | PyBool x, PyBool y => Bool.eqb x y
  | PyBool x, PyInt y => ((if x then 1 else 0) =? y)%Z
  | PyInt x, PyBool y => (x =? (if y then 1 else 0))%Z
  | PyInt x, PyInt y => (x =? y)%Z
  | PyFloat x, PyFloat y => String.eqb x y && negb (String.eqb x "nan")
  | PyStr x, PyStr y => String.eqb x y
  | PyList xs, PyList ys =>
      (fix go (xs ys : list pyval) {struct xs} : bool :=
         match xs, ys with
         | [], [] => true
         | x :: xs', y :: ys' => py_eq x y && go xs' ys'
         | _, _ => false
         end) xs ys
  | PyDict xs, PyDict ys =>
      (length xs =? length ys)%nat &&
      (fix all (xs : list (string * pyval)) {struct xs} : bool :=
         match xs with
         | [] => true
         | (k, v) :: xs' =>
             match dict_get k ys with
             | Some w => py_eq v w
             | None => false
             end && all xs'
         end) xs
  | _, _ => false
  end.

(** ** Hexadecimal text: [binascii.hexlify], [binascii.unhexlify], [bytes.hex] *)

Definition hex_digit (n : N) : ascii :=
  ascii_of_N (if (n <? 10)%N then 48 + n else 87 + n).

Definition hex_byte (b : byte) : string :=
  let n := Byte.to_N b in
  String (hex_digit (n / 16)) (String (hex_digit (n mod 16)) EmptyString).

Fixpoint hexlify (bs : bytes) : string :=
  match bs with
  | [] => EmptyString
  | b :: bs' => hex_byte b ++ hexlify bs'
  end.

Definition hex_value (c : ascii) : option N :=
  let n := N_of_ascii c in
  if ((48 <=? n) && (n <=? 57))%N then Some (n - 48)%N
  else if ((97 <=? n) && (n <=? 102))%N then Some (n - 87)%N
  else if ((65 <=? n) && (n <=? 70))%N then Some (n - 55)%N
  else None.

Definition is_hex_digit (c : ascii) : bool :=
  match hex_value c with Some _ => true | None => false end.

Definition is_ascii (c : ascii) : bool := (N_of_ascii c <? 128)%N.

Fixpoint all_chars (p : ascii -> bool) (s : string) : bool :=
  match s with
  | EmptyString => true
  | String c s' => p c && all_chars p s'
  end.

Definition byte_of_N (n : N) : byte :=
  match Byte.of_N n with Some b => b | None => x00 end.

(** The digit pairs of an even-length text; [None] at the first character
    that is not a hexadecimal digit. *)
Fixpoint unhex_pairs (s : string) : option bytes :=
  match s with
  | String hi (String lo s') =>
      match hex_value hi, hex_value lo with
      | Some h, Some l =>
          match unhex_pairs s' with
          | Some bs => Some (byte_of_N (16 * h + l) :: bs)
          | None => None
          end
      | _, _ => None
      end
  | String _ EmptyString => None
  | EmptyString => Some []
  end.

Definition unhexlify (s : string) : result bytes :=
  if negb (all_chars is_ascii s) then
    Raise (ValueError "string argument should contain only ASCII characters")
  else if Nat.odd (String.length s) then
    Raise (BinasciiError "Odd-length string")
  else
    match unhex_pairs s with
    | Some bs => Ok bs
    | None => Raise (BinasciiError "Non-hexadecimal digit found")
    end.

(** ** [json.dumps] with its default options and [str.encode("utf-8")] *)

Definition hex4 (n : N) : string :=
  String (hex_digit (n / 4096 mod 16))
    (String (hex_digit (n / 256 mod 16))
       (String (hex_digit (n / 16 mod 16))
          (String (hex_digit (n mod 16)) EmptyString))).

Definition quote : string := String (ascii_of_N 34) EmptyString.

Definition escape_char (c : ascii) : string :=
  let n := N_of_ascii c in
  if (n =? 34)%N then "\" ++ quote
  else if (n =? 92)%N then "\\"
  else if (n =? 10)%N then "\n"
  else if (n =? 13)%N then "\r"
  else if (n =? 9)%N then "\t"
  else if (n =? 8)%N then "\b"
  else if (n =? 12)%N then "\f"
  else if ((32 <=? n) && (n <=? 126))%N then String c EmptyString
  else "\u" ++ hex4 n.

Fixpoint escape_body (s : string) : string :=
  match s with
  | EmptyString => EmptyString
  | String c s' => escape_char c ++ escape_body s'
  end.

(** [json.encoder.py_encode_basestring_ascii] *)
Definition encode_basestring_ascii (s : string) : string :=
  quote ++ escape_body s ++ quote.

Definition int_repr (z : Z) : string := NilZero.string_of_int (Z.to_int z).

Fixpoint json_encode (v : pyval) : result string :=
  match v with
  | PyNone => Ok "null"
  | PyBool true => Ok "true"
  | PyBool false => Ok "false"
  | PyInt z => Ok (int_repr z)
  | PyFloat r =>
      Ok (if String.eqb r "nan" then "NaN"
          else if String.eqb r "inf" then "Infinity"
          else if String.eqb r "-inf" then "-Infinity"
          else r)
  | PyStr s => Ok (encode_basestring_ascii s)
  | PyList l =>
      match
        (fix items (l : list pyval) : result (list string) :=
           match l with
           | [] => Ok []
           | x :: l' =>
               match json_encode x with
               | Raise e => Raise e
               | Ok s =>
                   match items l' with
                   | Raise e => Raise e
                   | Ok ss => Ok (s :: ss)
                   end
               end
           end) l
      with
      | Raise e => Raise e
      | Ok ss => Ok ("[" ++ String.concat ", " ss ++ "]")
      end
  | PyDict d =>
      match
        (fix items (d : list (string * pyval)) : result (list string) :=
           match d with
           | [] => Ok []
           | (k, x) :: d' =>
               match json_encode x with
               | Raise e => Raise e
               | Ok s =>
                   match items d' with
                   | Raise e => Raise e
                   | Ok ss => Ok ((encode_basestring_ascii k ++ ": " ++ s) :: ss)
                   end
               end
           end) d
      with
      | Raise e => Raise e
      | Ok ss => Ok ("{" ++ String.concat ", " ss ++ "}")
      end
  | PyOther ty =>
      Raise (TypeError ("Object of type " ++ ty ++ " is not JSON serializable"))
  | PyCycle => Raise (ValueError "Circular reference detected")
  end.

Definition json_dumps (v : pyval) : result string := json_encode v.

Definition utf8_char (c : ascii) : bytes :=
  let n := N_of_ascii c in
  if (n <? 128)%N then [byte_of_N n]
  else [byte_of_N (192 + n / 64); byte_of_N (128 + n mod 64)].

Fixpoint encode_utf8 (s : string) : bytes :=
  match s with
  | EmptyString => []
  | String c s' => (utf8_char c ++ encode_utf8 s')%list
  end.

(** ** The Ed25519 primitives and PyNaCl's [SigningKey] *)

(** libsodium: the public key of a 32-byte seed, and the 64-byte detached
    signature of a message under the key of a seed. *)
Class Ed25519 : Type := {
  crypto_sign_seed_keypair : bytes -> bytes;
  crypto_sign_detached : bytes -> bytes -> bytes
}.

Record SigningKey : Type := { _seed : bytes; verify_key : bytes }.

Definition crypto_sign_SEEDBYTES : nat := 32.

Section Nacl.
Context {ed : Ed25519}.

(** [SigningKey(seed)] with the raw encoder: the length check of
    [SigningKey.__init__], then the key pair of the seed. *)
Definition SigningKey_new (seed : bytes) : result SigningKey :=
  if negb (length seed =? crypto_sign_SEEDBYTES)%nat then
    Raise (ValueError "The seed must be exactly 32 bytes long")
  else Ok {| _seed := seed; verify_key := crypto_sign_seed_keypair seed |}.

(** [SigningKey(text, encoder=HexEncoder)]: [HexEncoder.decode] is
    [binascii.unhexlify]. *)
Definition SigningKey_of_hex (text : string) : result SigningKey :=
  match unhexlify text with
  | Raise e => Raise e
  | Ok seed => SigningKey_new seed
  end.

(** [key.sign(msg).signature] *)
Definition SigningKey_sign (key : SigningKey) (msg : bytes) : bytes :=
  crypto_sign_detached msg (_seed key).

(** [key.encode(encoder=HexEncoder).decode()] *)
Definition SigningKey_hex (key : SigningKey) : string := hexlify (_seed key).

(** [key.verify_key.encode(encoder=HexEncoder).decode()] *)
Definition VerifyKey_hex (key : SigningKey) : string := hexlify (verify_key key).

End Nacl.

(** ** The client, its environment and its effects *)

Record PingClient : Type := {
  base_url : string;
  agent_id : pyval;
  _signing_key : option SigningKey;
  _public_key : string
}.

Definition with_agent_id (a : pyval) (c : PingClient) : PingClient :=
  {| base_url := base_url c; agent_id := a;
     _signing_key := _signing_key c; _public_key := _public_key c |}.

Definition with_keys (k : SigningKey) (pk : string) (c : PingClient) : PingClient :=
  {| base_url := base_url c; agent_id := agent_id c;
     _signing_key := Some k; _public_key := pk |}.

(** An f-string, by its pieces: a literal part is a [PyStr], a replacement
    field is the value it formats. *)
Definition fstring := list pyval.

Record request_t : Type := {
  req_method : string;
  req_url : fstring;
  req_data : option bytes
}.

(** What [urlopen] and the decoding of its answer come to:
    - a 2xx answer whose body [json.loads] decodes to [data];
    - an [HTTPError] with [code] and text [str_e]; [error_body] is [None]
      when its body is not JSON, [Some None] when it is a JSON object with
      no [error] entry, [Some (Some m)] when the entry is [m];
    - any other exception, which [_request] does not catch. *)
Inductive http_outcome : Type :=
| HttpOk (data : pyval)
| HttpError (code : Z) (str_e : string) (error_body : option (option string))
| HttpRaise (e : exn).

Record env : Type := {
  NACL_AVAILABLE : bool;        (* did [from nacl.signing import ...] succeed *)
  random_seed : bytes;          (* [nacl.utils.random(32)] *)
  time_ms : Z;                  (* [int(time.time() * 1000)] *)
  urlopen : request_t -> http_outcome
}.

Inductive event : Type :=
| Dumps (v : pyval)                           (* a call of [json.dumps] *)
| Signed (msg : bytes) (signature : bytes)    (* a call of [SigningKey.sign] *)
| Requested (r : request_t).                  (* a call of [urlopen] *)

Definition M (A : Type) : Type := PingClient -> result A * PingClient * list event.

Definition ret {A} (a : A) : M A := fun c => (Ok a, c, []).
Definition raise {A} (e : exn) : M A := fun c => (Raise e, c, []).
Definition bind {A B} (m : M A) (k : A -> M B) : M B :=
  fun c =>
    match m c with
    | (Ok a, c1, t1) =>
        match k a c1 with
        | (r, c2, t2) => (r, c2, (t1 ++ t2)%list)
        end
    | (Raise e, c1, t1) => (Raise e, c1, t1)
    end.
Definition get_self : M PingClient := fun c => (Ok c, c, []).
Definition put_self (c' : PingClient) : M unit := fun _ => (Ok tt, c', []).
Definition emit (ev : event) : M unit := fun c => (Ok tt, c, [ev]).
Definition lift {A} (r : result A) : M A := fun c => (r, c, []).

Notation "x <- m ;; k" := (bind m (fun x => k))
  (at level 61, m at next level, right associativity).
Notation "m ;;; k" := (bind m (fun _ => k))
  (at level 61, right associativity).

Definition outcome {A} (x : result A * PingClient * list event) : result A := fst (fst x).
Definition self_after {A} (x : result A * PingClient * list event) : PingClient := snd (fst x).
Definition effects {A} (x : result A * PingClient * list event) : list event := snd x.

(** [json.dumps(v)] as a step of a method. *)
Definition dumps (v : pyval) : M string :=
  emit (Dumps v) ;;; lift (json_dumps v).

Section Client.
Context {ed : Ed25519}.
Variable e : env.

(** *** Internals *)

Definition _require_agent : M unit :=
  self <- get_self ;;
  if negb (truthy (agent_id self)) then
    raise (PingError "Must register first (call register())" 400)
  else ret tt.

Definition _require_keys : M unit :=
  self <- get_self ;;
  match _signing_key self with
  | None => raise (PingError "Must generate or set keys first" 400)
  | Some _ => ret tt
  end.

Definition _sign (message : dict) : M string :=
  text <- dumps (PyDict message) ;;
  let msg_bytes := encode_utf8 text in
  self <- get_self ;;
  match _signing_key self with
  | None => raise (AttributeError "'NoneType' object has no attribute 'sign'")
  | Some key =>
      let signature := SigningKey_sign key msg_bytes in
      emit (Signed msg_bytes signature) ;;;
      ret (hexlify signature)
  end.

(** What [_request] makes of the outcome of [urlopen]: the decoded body,
    or a [PingError] for an [HTTPError]. *)
Definition answer (o : http_outcome) : result pyval :=
  match o with
  | HttpOk v => Ok v
  | HttpError code str_e (Some (Some m)) => Raise (PingError m code)
  | HttpError code str_e _ => Raise (PingError str_e code)
  | HttpRaise ex => Raise ex
  end.

Definition _request (method : string) (path : fstring) (body : option pyval) : M pyval :=
  self <- get_self ;;
  let url := PyStr (base_url self) :: path in
  data <- match body with
          | None => ret None
          | Some b => text <- dumps b ;; ret (Some (encode_utf8 text))
          end ;;
  let req := {| req_method := method; req_url := url; req_data := data |} in
  emit (Requested req) ;;;
  lift (answer (urlopen e req)).

(** *** Keys *)

Definition nacl_missing : exn :=
  PingError "PyNaCl not installed. Run: pip install pynacl" 500.

Definition generate_keys : M (string * string) :=
  if negb (NACL_AVAILABLE e) then raise nacl_missing
  else
    key <- lift (SigningKey_new (random_seed e)) ;;
    self <- get_self ;;
    put_self (with_keys key (VerifyKey_hex key) self) ;;;
    ret (SigningKey_hex key, VerifyKey_hex key).

Definition set_keys (private_key : string) : M unit :=
  if negb (NACL_AVAILABLE e) then raise nacl_missing
  else
    key <- lift (SigningKey_of_hex private_key) ;;
    self <- get_self ;;
    put_self (with_keys key (VerifyKey_hex key) self).

Definition public_key : M string :=
  self <- get_self ;; ret (_public_key self).

(** *** Reading the answers of the service *)

Record Agent : Type := {
  id : pyval; public_key_ : pyval; name : pyval; provider : pyval;
  capabilities : pyval; webhook_url : pyval; is_public : pyval; created_at : pyval
}.

Record Message : Type := {
  m_id : pyval; m_type : pyval; from_agent : pyval; to_agent : pyval;
  m_payload : pyval; reply_to_ : pyval; m_timestamp : pyval; m_signature : pyval;
  delivered : pyval; acknowledged : pyval
}.

Record Contact : Type := {
  contact_id : pyval; alias : pyval; notes : pyval; added_at : pyval; contact : pyval
}.

(** [data[k]] for a text key [k] *)
Definition getitem (data : pyval) (k : string) : result pyval :=
  match data with
  | PyDict d =>
      match dict_get k d with
      | Some v => Ok v
      | None => Raise (KeyError k)
      end
  | PyStr _ => Raise (TypeError "string indices must be integers")
  | PyList _ => Raise (TypeError "list indices must be integers or slices, not str")
  | _ => Raise (TypeError "object is not subscriptable")
  end.

(** [data.get(k, default)] *)
Definition get_or (data : pyval) (k : string) (default : pyval) : result pyval :=
  match data with
  | PyDict d =>
      match dict_get k d with
      | Some v => Ok v
      | None => Ok default
      end
  | _ => Raise (AttributeError "object has no attribute 'get'")
  end.

Fixpoint chars_of (s : string) : list pyval :=
  match s with
  | EmptyString => []
  | String c s' => PyStr (String c EmptyString) :: chars_of s'
  end.

(** [for x in data] *)
Definition iterate (data : pyval) : result (list pyval) :=
  match data with
  | PyList l => Ok l
  | PyDict d => Ok (map (fun kv => PyStr (fst kv)) d)
  | PyStr s => Ok (chars_of s)
  | _ => Raise (TypeError "object is not iterable")
  end.

Definition rbind {A B} (r : result A) (k : A -> result B) : result B :=
  match r with Ok a => k a | Raise ex => Raise ex end.

Fixpoint rmap {A B} (f : A -> result B) (l : list A) : result (list B) :=
  match l with
  | [] => Ok []
  | x :: l' => rbind (f x) (fun y => rbind (rmap f l') (fun ys => Ok (y :: ys)))
  end.

Definition Agent_of (data : pyval) : result Agent :=
  rbind (getitem data "id") (fun a =>
  rbind (getitem data "publicKey") (fun b =>
  rbind (getitem data "name") (fun c =>
  rbind (getitem data "provider") (fun d =>
  rbind (get_or data "capabilities" (PyList [])) (fun f =>
  rbind (get_or data "webhookUrl" PyNone) (fun g =>
  rbind (get_or data "isPublic" (PyBool false)) (fun h =>
  rbind (get_or data "createdAt" (PyStr EmptyString)) (fun i =>
  Ok {| id := a; public_key_ := b; name := c; provider := d; capabilities := f;
        webhook_url := g; is_public := h; created_at := i |})))))))).

(** One element of the comprehension of [inbox] ([with_flags]) or [history]. *)
Definition Message_of (with_flags : bool) (m : pyval) : result Message :=
  rbind (getitem m "id") (fun a =>
  rbind (getitem m "type") (fun b =>
  rbind (getitem m "from") (fun c =>
  rbind (getitem m "to") (fun d =>
  rbind (get_or m "payload" (PyDict [])) (fun f =>
  rbind (get_or m "replyTo" PyNone) (fun g =>
  rbind (get_or m "timestamp" (PyStr EmptyString)) (fun h =>
  rbind (get_or m "signature" (PyStr EmptyString)) (fun i =>
  rbind (if with_flags then get_or m "delivered" (PyBool false) else Ok (PyBool false)) (fun j =>
  rbind (if with_flags then get_or m "acknowledged" (PyBool false) else Ok (PyBool false)) (fun k =>
  Ok {| m_id := a; m_type := b; from_agent := c; to_agent := d; m_payload := f;
        reply_to_ := g; m_timestamp := h; m_signature := i;
        delivered := j; acknowledged := k |})))))))))).

Definition Contact_of (c : pyval) : result Contact :=
  rbind (getitem c "contactId") (fun a =>
  rbind (get_or c "alias" PyNone) (fun b =>
  rbind (get_or c "notes" PyNone) (fun d =>
  rbind (get_or c "addedAt" (PyStr EmptyString)) (fun f =>
  rbind (get_or c "contact" PyNone) (fun g =>
  Ok {| contact_id := a; alias := b; notes := d; added_at := f; contact := g |}))))).


(** *** Construction *)

(** [s.rstrip("/")] *)
Fixpoint rstrip_slash (s : string) : string :=
  match s with
  | EmptyString => EmptyString
  | String c s' =>
      match rstrip_slash s' with
      | EmptyString => if Ascii.eqb c "/" then EmptyString else String c EmptyString
      | r => String c r
      end
  end.

Definition nonempty (o : option string) : option string :=
  match o with
  | Some EmptyString => None
  | _ => o
  end.

(** [PingClient(base_url, private_key, agent_id)] *)
Definition __init__ (base_url_arg : string) (private_key agent_id_arg : option string)
  : result unit * PingClient * list event :=
  let self := {| base_url := rstrip_slash base_url_arg;
                 agent_id := match nonempty agent_id_arg with
                             | Some a => PyStr a
                             | None => PyStr EmptyString
                             end;
                 _signing_key := None;
                 _public_key := EmptyString |} in
  match nonempty private_key with
  | Some pk => set_keys pk self
  | None => (Ok tt, self, [])
  end.

(** *** Agents *)

Definition register (name_arg provider_arg : string) (capabilities_arg : option (list string))
    (webhook_url_arg : option string) (is_public_arg : bool) : M Agent :=
  self <- get_self ;;
  (if String.eqb (_public_key self) EmptyString
   then generate_keys ;;; ret tt
   else ret tt) ;;;
  self <- get_self ;;
  data <- _request "POST" [PyStr "/agents"]
            (Some (PyDict
               [ ("publicKey", PyStr (_public_key self));
                 ("name", PyStr name_arg);
                 ("provider", PyStr provider_arg);
                 ("capabilities",
                  PyList (map PyStr (match capabilities_arg with
                                     | Some l => l
                                     | None => []
                                     end)));
                 ("webhookUrl", opt_str webhook_url_arg);
                 ("isPublic", PyBool is_public_arg) ])) ;;
  new_id <- lift (getitem data "id") ;;
  self <- get_self ;;
  put_self (with_agent_id new_id self) ;;;
  lift (Agent_of data).

Definition get_agent (agent : string) : M Agent :=
  data <- _request "GET" [PyStr "/agents/"; PyStr agent] None ;;
  lift (Agent_of data).

Definition delete_agent : M unit :=
  _require_agent ;;;
  self <- get_self ;;
  _request "DELETE" [PyStr "/agents/"; agent_id self] None ;;;
  self <- get_self ;;
  put_self (with_agent_id (PyStr EmptyString) self).

(** *** Directory *)

Definition directory : M pyval := _request "GET" [PyStr "/directory"] None.

Definition search_params (query capability provider_arg : option string) : list fstring :=
  (match nonempty query with Some q => [[PyStr "q="; PyStr q]] | None => [] end ++
   match nonempty capability with Some q => [[PyStr "capability="; PyStr q]] | None => [] end ++
   match nonempty provider_arg with Some q => [[PyStr "provider="; PyStr q]] | None => [] end)%list.

(** ["&".join(params)] *)
Fixpoint join_amp (params : list fstring) : fstring :=
  match params with
  | [] => []
  | [p] => p
  | p :: ps => (p ++ PyStr "&" :: join_amp ps)%list
  end.

Definition search (query capability provider_arg : option string) : M pyval :=
  let params := search_params query capability provider_arg in
  let path :=
    match params with
    | [] => [PyStr "/directory/search"]
    | _ => (PyStr "/directory/search" :: PyStr "?" :: join_amp params)%list
    end in
  _request "GET" path None.

(** *** Contacts *)

Definition contacts : M (list Contact) :=
  _require_agent ;;;
  self <- get_self ;;
  data <- _request "GET" [PyStr "/agents/"; agent_id self; PyStr "/contacts"] None ;;
  items <- lift (iterate data) ;;
  lift (rmap Contact_of items).

Definition add_contact (contact_arg : string) (alias_arg notes_arg : option string) : M unit :=
  _require_agent ;;;
  self <- get_self ;;
  _request "POST" [PyStr "/agents/"; agent_id self; PyStr "/contacts"]
    (Some (PyDict [ ("contactId", PyStr contact_arg);
                    ("alias", opt_str alias_arg);
                    ("notes", opt_str notes_arg) ])) ;;;
  ret tt.

Definition remove_contact (contact_arg : string) : M unit :=
  _require_agent ;;;
  self <- get_self ;;
  _request "DELETE"
    [PyStr "/agents/"; agent_id self; PyStr "/contacts/"; PyStr contact_arg] None ;;;
  ret tt.

(** *** Messages *)

(** [payload or {}] *)
Definition payload_or_empty (payload : option dict) : dict :=
  match payload with
  | Some (item :: d) => item :: d
  | _ => []
  end.

(** [{**d, k: v}]: the entry takes the place of an entry of the same key,
    or comes last. *)
Fixpoint dict_set (k : string) (v : pyval) (d : dict) : dict :=
  match d with
  | [] => [(k, v)]
  | (k', v') :: d' =>
      if String.eqb k k' then (k', v) :: d' else (k', v') :: dict_set k v d'
  end.

Definition message_of (from : pyval) (to msg_type : string) (payload : option dict)
    (reply_to : option string) (timestamp : Z) : dict :=
  [ ("type", PyStr msg_type);
    ("from", from);
    ("to", PyStr to);
    ("payload", PyDict (payload_or_empty payload));
    ("replyTo", opt_str reply_to);
    ("timestamp", PyInt timestamp) ].

Definition send (to msg_type : string) (payload : option dict)
    (reply_to : option string) : M pyval :=
  _require_agent ;;;
  _require_keys ;;;
  self <- get_self ;;
  let message := message_of (agent_id self) to msg_type payload reply_to (time_ms e) in
  signature <- _sign message ;;
  _request "POST" [PyStr "/messages"]
    (Some (PyDict (dict_set "signature" (PyStr signature) message))).

Definition inbox (include_all : bool) : M (list Message) :=
  _require_agent ;;;
  self <- get_self ;;
  let path := ([PyStr "/agents/"; agent_id self; PyStr "/inbox"] ++
               (if include_all then [PyStr "?all=true"] else []))%list in
  data <- _request "GET" path None ;;
  items <- lift (iterate data) ;;
  lift (rmap (Message_of true) items).

Definition history (other_id : string) (limit : Z) : M (list Message) :=
  _require_agent ;;;
  self <- get_self ;;
  data <- _request "GET"
            [PyStr "/agents/"; agent_id self; PyStr "/messages/"; PyStr other_id;
             PyStr "?limit="; PyInt limit] None ;;
  items <- lift (iterate data) ;;
  lift (rmap (Message_of false) items).

Definition ack (message_id : string) : M unit :=
  _request "POST" [PyStr "/messages/"; PyStr message_id; PyStr "/ack"] None ;;;
  ret tt.

(** *** Convenience methods *)

Definition text (to body : string) : M pyval :=
  send to "text" (Some [("text", PyStr body)]) None.

Definition ping (to : string) : M pyval :=
  send to "ping" (Some []) None.

Definition pong (to : string) (reply_to : option string) : M pyval :=
  send to "pong" (Some []) reply_to.

Definition request (to action : string) (data : pyval) : M pyval :=
  send to "request" (Some [("action", PyStr action); ("data", data)]) None.

Definition respond (to : string) (res : pyval) (reply_to : option string) : M pyval :=
  send to "response" (Some [("result", res)]) reply_to.

Definition propose (to : string) (proposal : dict) : M pyval :=
  send to "proposal" (Some proposal) None.

Definition signature (to sig : string) (reply_to : option string) : M pyval :=
  send to "signature" (Some [("signature", PyStr sig)]) reply_to.

End Client.

(** ** Every public method as one call *)

Inductive call : Type :=
| Call_generate_keys
| Call_set_keys (private_key : string)
| Call_public_key
| Call_register (name provider : string) (capabilities : option (list string))
    (webhook_url : option string) (is_public : bool)
| Call_get_agent (agent : string)
| Call_delete_agent
| Call_directory
| Call_search (query capability provider : option string)
| Call_contacts
| Call_add_contact (contact : string) (alias notes : option string)
| Call_remove_contact (contact : string)
| Call_send (to msg_type : string) (payload : option dict) (reply_to : option string)
| Call_inbox (include_all : bool)
| Call_history (other_id : string) (limit : Z)
| Call_ack (message_id : string)
| Call_text (to body : string)
| Call_ping (to : string)
| Call_pong (to : string) (reply_to : option string)
| Call_request (to action : string) (data : pyval)
| Call_respond (to : string) (res : pyval) (reply_to : option string)
| Call_propose (to : string) (proposal : dict)
| Call_signature (to sig : string) (reply_to : option string).

(** The exception a call ended with, if any; its return value is dropped. *)
Definition finish {A} (x : result A * PingClient * list event)
  : option exn * PingClient * list event :=
  match x with
  | (Ok _, c, t) => (None, c, t)
  | (Raise ex, c, t) => (Some ex, c, t)
  end.

Definition perform {ed : Ed25519} (e : env) (k : call) (c : PingClient)
  : option exn * PingClient * list event :=
  match k with
  | Call_generate_keys => finish (generate_keys e c)
  | Call_set_keys pk => finish (set_keys e pk c)
  | Call_public_key => finish (public_key c)
  | Call_register n p caps w pub => finish (register e n p caps w pub c)
  | Call_get_agent a => finish (get_agent e a c)
  | Call_delete_agent => finish (delete_agent e c)
  | Call_directory => finish (directory e c)
  | Call_search q cap p => finish (search e q cap p c)
  | Call_contacts => finish (contacts e c)
  | Call_add_contact a b n => finish (add_contact e a b n c)
  | Call_remove_contact a => finish (remove_contact e a c)
  | Call_send to ty p r => finish (send e to ty p r c)
  | Call_inbox a => finish (inbox e a c)
  | Call_history o l => finish (history e o l c)
  | Call_ack m => finish (ack e m c)
  | Call_text to b => finish (text e to b c)
  | Call_ping to => finish (ping e to c)
  | Call_pong to r => finish (pong e to r c)
  | Call_request to a d => finish (request e to a d c)
  | Call_respond to r rt => finish (respond e to r rt c)
  | Call_propose to p => finish (propose e to p c)
  | Call_signature to s r => finish (signature e to s r c)
  end.

(** A session: calls made one after the other on the same client, each in
    the environment it meets. *)
Fixpoint session {ed : Ed25519} (calls : list (env * call)) (c : PingClient) : PingClient :=
  match calls with
  | [] => c
  | (e, k) :: rest => session rest (snd (fst (perform e k c)))
  end.

(** ** Concrete inputs

    A stand-in for libsodium, an environment and two clients, to evaluate
    the model; the general theorems hold for every instance of [Ed25519]. *)

Definition sample_ed25519 : Ed25519 :=
  {| crypto_sign_seed_keypair := fun seed => rev seed;
     crypto_sign_detached := fun msg seed => (seed ++ firstn 32 msg)%list |}.

Definition sample_seed : bytes := repeat x2a 32.

Definition sample_key : SigningKey :=
  {| _seed := sample_seed; verify_key := rev sample_seed |}.

Definition sample_env : env :=
  {| NACL_AVAILABLE := true;
     random_seed := sample_seed;
     time_ms := 1700000000000;
     urlopen := fun _ => HttpOk (PyDict [("id", PyStr "msg-1")]) |}.

(** The same environment one millisecond later. *)
Definition later_env : env :=
  {| NACL_AVAILABLE := true;
     random_seed := sample_seed;
     time_ms := 1700000000001;
     urlopen := fun _ => HttpOk (PyDict [("id", PyStr "msg-1")]) |}.

(** Two payloads that are equal as mappings and differ in insertion order. *)
Definition payload_ab : dict := [("a", PyInt 1); ("b", PyInt 2)].
Definition payload_ba : dict := [("b", PyInt 2); ("a", PyInt 1)].

Definition fresh_client : PingClient :=
  {| base_url := "http://localhost:3100"; agent_id := PyStr EmptyString;
     _signing_key := None; _public_key := EmptyString |}.

Definition ready_client : PingClient :=
  {| base_url := "http://localhost:3100"; agent_id := PyStr "agent-A";
     _signing_key := Some sample_key; _public_key := hexlify (rev sample_seed) |}.

(** ** The serializer, item by item *)

Fixpoint list_items (l : list pyval) : result (list string) :=
  match l with
  | [] => Ok []
  | x :: l' =>
      match json_encode x with
      | Raise ex => Raise ex
      | Ok s =>
          match list_items l' with
          | Raise ex => Raise ex
          | Ok ss => Ok (s :: ss)
          end
      end
  end.

Definition dict_item (k s : string) : string := encode_basestring_ascii k ++ ": " ++ s.

Fixpoint dict_items (d : dict) : result (list string) :=
  match d with
  | [] => Ok []
  | (k, x) :: d' =>
      match json_encode x with
      | Raise ex => Raise ex
      | Ok s =>
          match dict_items d' with
          | Raise ex => Raise ex
          | Ok ss => Ok (dict_item k s :: ss)
          end
      end
  end.

(** The exceptions of [json.dumps] are Python's own. *)
Definition is_builtin_encoding_error (ex : exn) : bool :=
  match ex with
  | TypeError _ | ValueError _ => true
  | _ => false
  end.

(** The key names of the envelope, in the order of the literal in [send]. *)
Definition content_fields : list string :=
  ["type"; "from"; "to"; "payload"; "replyTo"; "timestamp"].

(** The text of the envelope: six entries, in the order of [content_fields]. *)
Definition message_items (from_text to msg_type payload_text : string)
    (reply_to : option string) (timestamp : Z) : list string :=
  [ dict_item "type" (encode_basestring_ascii msg_type);
    dict_item "from" from_text;
    dict_item "to" (encode_basestring_ascii to);
    dict_item "payload" payload_text;
    dict_item "replyTo" (match reply_to with
                         | Some r => encode_basestring_ascii r
                         | None => "null"
                         end);
    dict_item "timestamp" (int_repr timestamp) ].

(** ** The errors and the request of [send] *)

Definition must_register : exn := PingError "Must register first (call register())" 400.
Definition key_not_configured : exn := PingError "Must generate or set keys first" 400.

(** The body [send] hands to [_request]: the envelope and, last, its signature. *)
Definition signed_envelope (message : dict) (sig : bytes) : dict :=
  (message ++ [("signature", PyStr (hexlify sig))])%list.

Definition post_messages (c : PingClient) (body_text : string) : request_t :=
  {| req_method := "POST";
     req_url := [PyStr (base_url c); PyStr "/messages"];
     req_data := Some (encode_utf8 body_text) |}.


(** ** What is observed of a call *)

(** The bytes handed to [SigningKey.sign], if the call signed anything. *)
Fixpoint signed_bytes (t : list event) : option bytes :=
  match t with
  | [] => None
  | Signed msg _ :: _ => Some msg
  | _ :: t' => signed_bytes t'
  end.

(** The envelope a call built: the first value it gave to [json.dumps]. *)
Fixpoint envelope_of (t : list event) : option pyval :=
  match t with
  | [] => None
  | Dumps v :: _ => Some v
  | _ :: t' => envelope_of t'
  end.

Definition field (k : string) (v : pyval) : option pyval :=
  match v with
  | PyDict d => dict_get k d
  | _ => None
  end.

Definition sent_timestamp (t : list event) : option pyval :=
  match envelope_of t with
  | Some v => field "timestamp" v
  | None => None
  end.

(** A hex-encoded Ed25519 private key: 64 hexadecimal digits (32 bytes). *)
Definition valid_private_key_hex (s : string) : bool :=
  (String.length s =? 64)%nat && all_chars is_hex_digit s.

(** What [SigningKey(text, encoder=HexEncoder)] raises on a text it refuses. *)
Definition is_key_decoding_error (ex : exn) : bool :=
  match ex with
  | ValueError _ | BinasciiError _ => true
  | _ => false
  end.

(** The two states of the held key. *)
Inductive key_state : Type := Unset | Set_.

Definition held_key (c : PingClient) : key_state :=
  match _signing_key c with
  | None => Unset
  | Some _ => Set_
  end.

(** The calls that assign [_signing_key]: [generate_keys] and [set_keys],
    and [register], which calls [generate_keys]. *)
Definition assigns_key (k : call) : bool :=
  match k with
  | Call_generate_keys | Call_set_keys _ | Call_register _ _ _ _ _ => true
  | _ => false
  end.

(** The client a call leaves behind. *)
Definition client_after {ed : Ed25519} (e : env) (k : call) (c : PingClient) : PingClient :=
  snd (fst (perform e k c)).

(** [m] keeps the property [J] of the client. *)
Definition inv (J : PingClient -> Prop) {A} (m : M A) : Prop :=
  forall c, J c -> J (self_after (m c)).

(** ** Further observations of the client *)

(** The calls that start with [_require_agent]. *)
Definition needs_agent (k : call) : bool :=
  match k with
  | Call_delete_agent | Call_contacts | Call_add_contact _ _ _
  | Call_remove_contact _ | Call_send _ _ _ _ | Call_inbox _ | Call_history _ _
  | Call_text _ _ | Call_ping _ | Call_pong _ _ | Call_request _ _ _
  | Call_respond _ _ _ | Call_propose _ _ | Call_signature _ _ _ => true
  | _ => false
  end.

(** The calls that assign [agent_id]. *)
Definition assigns_agent_id (k : call) : bool :=
  match k with
  | Call_register _ _ _ _ _ | Call_delete_agent => true
  | _ => false
  end.

(** The requests a call made, in order. *)
Fixpoint requests (t : list event) : list request_t :=
  match t with
  | [] => []
  | Requested r :: t' => r :: requests t'
  | _ :: t' => requests t'
  end.

(** The request [_request] makes on client [c]. *)
Definition request_of (c : PingClient) (method : string) (path : fstring)
    (data : option bytes) : request_t :=
  {| req_method := method; req_url := PyStr (base_url c) :: path; req_data := data |}.

Definition is_lower_hex (c : ascii) : bool :=
  let n := N_of_ascii c in
  (((48 <=? n) && (n <=? 57)) || ((97 <=? n) && (n <=? 102)))%N.

Fixpoint ends_with_slash (s : string) : bool :=
  match s with
  | EmptyString => false
  | String c EmptyString => Ascii.eqb c "/"
  | String _ s' => ends_with_slash s'
  end.

Fixpoint slashes (n : nat) : string :=
  match n with
  | O => EmptyString
  | S n' => String "/" (slashes n')
  end.

Definition has_key (k : string) (d : dict) : bool :=
  match dict_get k d with Some _ => true | None => false end.

(** The public key text is the one of the held key, and empty without a key. *)
Definition keys_consistent (c : PingClient) : Prop :=
  match _signing_key c with
  | None => _public_key c = EmptyString
  | Some k => _public_key c = hexlify (verify_key k)
  end.

(** The body [register] posts. *)
Definition register_body (pk name_arg provider_arg : string)
    (capabilities_arg : option (list string)) (webhook_url_arg : option string)
    (is_public_arg : bool) : pyval :=
  PyDict
    [ ("publicKey", PyStr pk);
      ("name", PyStr name_arg);
      ("provider", PyStr provider_arg);
      ("capabilities",
       PyList (map PyStr (match capabilities_arg with
                          | Some l => l
                          | None => []
                          end)));
      ("webhookUrl", opt_str webhook_url_arg);
      ("isPublic", PyBool is_public_arg) ].

(** An environment without PyNaCl, and one whose service refuses every request. *)
Definition bare_env : env :=
  {| NACL_AVAILABLE := false; random_seed := sample_seed; time_ms := 0;
     urlopen := fun _ => HttpOk PyNone |}.

Definition refusing_env : env :=
  {| NACL_AVAILABLE := true; random_seed := sample_seed; time_ms := 0;
     urlopen := fun _ => HttpError 403 "HTTP Error 403: Forbidden" (Some (Some "forbidden")) |}.


(** An environment whose service answers every request with one message,
    marked delivered. *)
Definition history_env : env :=
  {| NACL_AVAILABLE := true; random_seed := sample_seed; time_ms := 0;
     urlopen := fun _ =>
       HttpOk (PyList [PyDict [ ("id", PyStr "m1"); ("type", PyStr "text");
                                ("from", PyStr "agent-B"); ("to", PyStr "agent-A");
                                ("delivered", PyBool true) ]]) |}.

(** ** Facts about the serializer *)

Lemma json_encode_list (l : list pyval) :
  json_encode (PyList l) =
  match list_items l with
  | Raise ex => Raise ex
  | Ok ss => Ok ("[" ++ String.concat ", " ss ++ "]")
  end.
Proof.
  cbn [json_encode].
  match goal with |- match ?f l with _ => _ end = _ => assert (E : f l = list_items l) end.
  { induction l as [|x l IH]; [reflexivity|].
    cbn [list_items]. destruct (json_encode x); [|reflexivity].
    rewrite IH. reflexivity. }
  rewrite E. reflexivity.
Qed.

Lemma json_encode_dict (d : dict) :
  json_encode (PyDict d) =
  match dict_items d with
  | Raise ex => Raise ex
  | Ok ss => Ok ("{" ++ String.concat ", " ss ++ "}")
  end.
Proof.
  cbn [json_encode].
  match goal with |- match ?f d with _ => _ end = _ => assert (E : f d = dict_items d) end.
  { induction d as [|[k x] d IH]; [reflexivity|].
    cbn [dict_items]. destruct (json_encode x); [|reflexivity].
    rewrite IH. reflexivity. }
  rewrite E. reflexivity.
Qed.

(** Induction on values that reaches the elements of lists and dicts. *)
Section PyvalInd.
Variable P : pyval -> Prop.
Hypothesis HNone : P PyNone.
Hypothesis HBool : forall b, P (PyBool b).
Hypothesis HInt : forall z, P (PyInt z).
Hypothesis HFloat : forall r, P (PyFloat r).
Hypothesis HStr : forall s, P (PyStr s).
Hypothesis HList : forall l, Forall P l -> P (PyList l).
Hypothesis HDict : forall d, Forall (fun kv => P (snd kv)) d -> P (PyDict d).
Hypothesis HOther : forall ty, P (PyOther ty).
Hypothesis HCycle : P PyCycle.

Fixpoint pyval_nested_ind (v : pyval) : P v :=
  match v with
  | PyNone => HNone
  | PyBool b => HBool b
  | PyInt z => HInt z
  | PyFloat r => HFloat r
  | PyStr s => HStr s
  | PyList l =>
      HList l
        ((fix go (l : list pyval) : Forall P l :=
            match l with
            | [] => Forall_nil _
            | x :: l' => Forall_cons x (pyval_nested_ind x) (go l')
            end) l)
  | PyDict d =>
      HDict d
        ((fix go (d : list (string * pyval)) : Forall (fun kv => P (snd kv)) d :=
            match d with
            | [] => Forall_nil _
            | kv :: d' =>
                Forall_cons (P := fun kv => P (snd kv)) kv
                  (pyval_nested_ind (snd kv)) (go d')
            end) d)
  | PyOther ty => HOther ty
  | PyCycle => HCycle
  end.
End PyvalInd.

Lemma json_encode_raises (v : pyval) (ex : exn) :
  json_encode v = Raise ex -> is_builtin_encoding_error ex = true.
Proof.
  revert ex. induction v as [ |b|z|r|s|l IH|d IH|ty| ] using pyval_nested_ind;
    intros ex H.
  - discriminate.
  - destruct b; discriminate.
  - discriminate.
  - discriminate.
  - discriminate.
  - rewrite json_encode_list in H.
    assert (L : list_items l = Raise ex) by (destruct (list_items l); congruence).
    clear H. induction IH as [|x l Hx _ IHl]; [discriminate|].
    cbn [list_items] in L. destruct (json_encode x) eqn:Ex.
    + destruct (list_items l); [discriminate|]. apply IHl. congruence.
    + apply (Hx ex). congruence.
  - rewrite json_encode_dict in H.
    assert (L : dict_items d = Raise ex) by (destruct (dict_items d); congruence).
    clear H. induction IH as [|[k x] d Hx _ IHd]; [discriminate|].
    cbn [dict_items] in L. cbn [snd] in Hx. destruct (json_encode x) eqn:Ex.
    + destruct (dict_items d); [discriminate|]. apply IHd. congruence.
    + apply (Hx ex). congruence.
  - inversion H. reflexivity.
  - inversion H. reflexivity.
Qed.

Lemma builtin_error_not_PingError (ex : exn) :
  is_builtin_encoding_error ex = true -> is_PingError ex = false.
Proof. destruct ex; simpl; congruence. Qed.

Lemma dict_items_app (d1 d2 : dict) (s1 s2 : list string) :
  dict_items d1 = Ok s1 -> dict_items d2 = Ok s2 ->
  dict_items (d1 ++ d2)%list = Ok (s1 ++ s2)%list.
Proof.
  revert s1. induction d1 as [|[k x] d1 IH]; intros s1 H1 H2.
  - inversion H1. exact H2.
  - cbn [dict_items app] in *. destruct (json_encode x); [|discriminate].
    destruct (dict_items d1) eqn:E; [|discriminate].
    rewrite (IH _ eq_refl H2). inversion H1. reflexivity.
Qed.

Lemma message_of_keys from to ty payload reply_to ts :
  map fst (message_of from to ty payload reply_to ts) = content_fields.
Proof. reflexivity. Qed.

Lemma dict_set_message from to ty payload reply_to ts v :
  dict_set "signature" v (message_of from to ty payload reply_to ts) =
  (message_of from to ty payload reply_to ts ++ [("signature", v)])%list.
Proof. reflexivity. Qed.

Lemma dict_items_message from to ty payload reply_to ts ft pt :
  json_encode from = Ok ft ->
  json_encode (PyDict (payload_or_empty payload)) = Ok pt ->
  dict_items (message_of from to ty payload reply_to ts) =
  Ok (message_items ft to ty pt reply_to ts).
Proof.
  intros Hf Hp. unfold message_of, message_items.
  cbn [dict_items]. rewrite Hf, Hp.
  destruct reply_to; reflexivity.
Qed.

Lemma dict_items_message_inv from to ty payload reply_to ts ss :
  dict_items (message_of from to ty payload reply_to ts) = Ok ss ->
  exists ft pt,
    json_encode from = Ok ft /\
    json_encode (PyDict (payload_or_empty payload)) = Ok pt /\
    ss = message_items ft to ty pt reply_to ts.
Proof.
  unfold message_of. cbn [dict_items].
  destruct (json_encode from) as [ft|] eqn:Hf.
  2:{ cbn. discriminate. }
  destruct (json_encode (PyDict (payload_or_empty payload))) as [pt|] eqn:Hp.
  2:{ cbn. discriminate. }
  intros H. exists ft, pt. split; [reflexivity|]. split; [reflexivity|].
  destruct reply_to; cbn in H; inversion H; reflexivity.
Qed.

(** ** Steps of [send] *)

Section SendSteps.
Context {ed : Ed25519}.
Variable e : env.

Lemma send_unregistered c to ty payload reply_to :
  truthy (agent_id c) = false ->
  send e to ty payload reply_to c = (Raise must_register, c, []).
Proof.
  intros H. unfold send, _require_agent, bind, get_self, raise. rewrite H. reflexivity.
Qed.

Lemma send_without_key c to ty payload reply_to :
  truthy (agent_id c) = true -> _signing_key c = None ->
  send e to ty payload reply_to c = (Raise key_not_configured, c, []).
Proof.
  intros Ha Hk.
  unfold send, _require_agent, _require_keys, bind, get_self, raise, ret.
  rewrite Ha. cbn [negb]. rewrite Hk. reflexivity.
Qed.

Lemma _sign_ok c message key text :
  _signing_key c = Some key -> json_dumps (PyDict message) = Ok text ->
  _sign message c =
  (Ok (hexlify (SigningKey_sign key (encode_utf8 text))), c,
   [Dumps (PyDict message);
    Signed (encode_utf8 text) (SigningKey_sign key (encode_utf8 text))]).
Proof.
  intros Hk Hd. unfold _sign, dumps, bind, emit, lift, get_self, ret.
  rewrite Hd. cbn [app]. rewrite Hk. reflexivity.
Qed.

Lemma _sign_raises c message ex :
  json_dumps (PyDict message) = Raise ex ->
  _sign message c = (Raise ex, c, [Dumps (PyDict message)]).
Proof.
  intros Hd. unfold _sign, dumps, bind, emit, lift. rewrite Hd. reflexivity.
Qed.

Lemma send_ready c to ty payload reply_to key :
  truthy (agent_id c) = true -> _signing_key c = Some key ->
  send e to ty payload reply_to c =
  bind (_sign (message_of (agent_id c) to ty payload reply_to (time_ms e)))
    (fun sig =>
       _request e "POST" [PyStr "/messages"]
         (Some (PyDict (dict_set "signature" (PyStr sig)
                          (message_of (agent_id c) to ty payload reply_to (time_ms e))))))
    c.
Proof.
  intros Ha Hk.
  unfold send, _require_agent, _require_keys, bind, get_self, raise, ret.
  rewrite Ha. cbn [negb]. rewrite Hk.
  destruct (_sign _ c) as [[[sig|ex] c1] t1]; [|reflexivity].
  destruct (_request _ _ _ _ c1) as [[r c2] t2]. reflexivity.
Qed.

Lemma signed_envelope_dumps message sig text :
  json_dumps (PyDict message) = Ok text ->
  exists body_text, json_dumps (PyDict (signed_envelope message sig)) = Ok body_text.
Proof.
  unfold json_dumps. rewrite !json_encode_dict. intros H.
  destruct (dict_items message) as [ss|] eqn:E; [|discriminate].
  unfold signed_envelope.
  assert (S : dict_items [("signature", PyStr (hexlify sig))] =
              Ok [dict_item "signature" (encode_basestring_ascii (hexlify sig))])
    by reflexivity.
  rewrite (dict_items_app _ _ _ _ E S).
  eexists. reflexivity.
Qed.

Lemma send_run c to ty payload reply_to key text body_text :
  truthy (agent_id c) = true -> _signing_key c = Some key ->
  let message := message_of (agent_id c) to ty payload reply_to (time_ms e) in
  let sig := SigningKey_sign key (encode_utf8 text) in
  json_dumps (PyDict message) = Ok text ->
  json_dumps (PyDict (signed_envelope message sig)) = Ok body_text ->
  send e to ty payload reply_to c =
  (answer (urlopen e (post_messages c body_text)), c,
   [ Dumps (PyDict message);
     Signed (encode_utf8 text) sig;
     Dumps (PyDict (signed_envelope message sig));
     Requested (post_messages c body_text) ]).
Proof.
  intros Ha Hk message sig Hd Hb.
  rewrite (send_ready c to ty payload reply_to key Ha Hk).
  fold message. unfold bind at 1.
  rewrite (_sign_ok c message key text Hk Hd). fold sig.
  unfold message at 1. rewrite dict_set_message. fold message.
  change (message ++ [("signature", PyStr (hexlify sig))])%list
    with (signed_envelope message sig).
  unfold _request, dumps, bind, emit, lift, get_self, ret.
  rewrite Hb. reflexivity.
Qed.

Lemma send_unserializable c to ty payload reply_to key ex :
  truthy (agent_id c) = true -> _signing_key c = Some key ->
  let message := message_of (agent_id c) to ty payload reply_to (time_ms e) in
  json_dumps (PyDict message) = Raise ex ->
  send e to ty payload reply_to c = (Raise ex, c, [Dumps (PyDict message)]).
Proof.
  intros Ha Hk message Hd.
  rewrite (send_ready c to ty payload reply_to key Ha Hk).
  fold message. unfold bind.
  rewrite (_sign_raises c message ex Hd). reflexivity.
Qed.

End SendSteps.

Section SendFacts.
Context {ed : Ed25519}.
Variable e : env.

Lemma send_starts_with_envelope c to ty payload reply_to key :
  truthy (agent_id c) = true -> _signing_key c = Some key ->
  exists t,
    effects (send e to ty payload reply_to c) =
    Dumps (PyDict (message_of (agent_id c) to ty payload reply_to (time_ms e))) :: t.
Proof.
  intros Ha Hk. rewrite (send_ready e c to ty payload reply_to key Ha Hk).
  set (message := message_of _ _ _ _ _ _).
  destruct (json_dumps (PyDict message)) as [text|ex] eqn:Hd.
  - unfold bind at 1. rewrite (_sign_ok c message key text Hk Hd).
    destruct (_request _ _ _ _ c) as [[r c2] t2]. eexists. reflexivity.
  - unfold bind. rewrite (_sign_raises c message ex Hd). eexists. reflexivity.
Qed.

Lemma message_unserializable_payload from to ty payload reply_to ts ft ex :
  json_encode from = Ok ft ->
  json_dumps (PyDict (payload_or_empty payload)) = Raise ex ->
  json_dumps (PyDict (message_of from to ty payload reply_to ts)) = Raise ex.
Proof.
  unfold json_dumps. intros Hf Hp.
  rewrite json_encode_dict. unfold message_of. cbn [dict_items].
  rewrite Hf, Hp. reflexivity.
Qed.

End SendFacts.

(** ** The envelope and its signature *)

(** C1. When [send] passes its two checks and the envelope serializes, the
    envelope has exactly the six content fields, [signature] is not one of
    them, the bytes signed are the UTF-8 bytes of [json.dumps] of that
    envelope, and the signature enters only the body that is posted
    afterwards, as its last entry. *)
Theorem signature_covers_content_fields {ed : Ed25519} (e : env) (c : PingClient)
    (to ty : string) (payload : option dict) (reply_to : option string)
    (key : SigningKey) (text : string) :
  truthy (agent_id c) = true ->
  _signing_key c = Some key ->
  json_dumps (PyDict (message_of (agent_id c) to ty payload reply_to (time_ms e))) = Ok text ->
  map fst (message_of (agent_id c) to ty payload reply_to (time_ms e)) = content_fields /\
  ~ In "signature" (map fst (message_of (agent_id c) to ty payload reply_to (time_ms e))) /\
  signed_bytes (effects (send e to ty payload reply_to c)) = Some (encode_utf8 text) /\
  exists body_text,
    json_dumps
      (PyDict (signed_envelope (message_of (agent_id c) to ty payload reply_to (time_ms e))
                 (crypto_sign_detached (encode_utf8 text) (_seed key)))) = Ok body_text /\
    effects (send e to ty payload reply_to c) =
    [ Dumps (PyDict (message_of (agent_id c) to ty payload reply_to (time_ms e)));
      Signed (encode_utf8 text) (crypto_sign_detached (encode_utf8 text) (_seed key));
      Dumps (PyDict (signed_envelope
                       (message_of (agent_id c) to ty payload reply_to (time_ms e))
                       (crypto_sign_detached (encode_utf8 text) (_seed key))));
      Requested (post_messages c body_text) ].
Proof.
  intros Ha Hk Hd.
  set (message := message_of (agent_id c) to ty payload reply_to (time_ms e)) in *.
  destruct (signed_envelope_dumps message
              (crypto_sign_detached (encode_utf8 text) (_seed key)) text Hd)
    as [body_text Hb].
  pose proof (send_run e c to ty payload reply_to key text body_text Ha Hk Hd Hb) as R.
  fold message in R. unfold SigningKey_sign in R.
  split; [reflexivity|]. split.
  - cbn. intros H.
    repeat (destruct H as [H|H]; [discriminate H|]). exact H.
  - rewrite R. split; [reflexivity|]. exists body_text. split; [exact Hb|reflexivity].
Qed.

Lemma signature_covers_content_fields_witness :
  exists text,
    json_dumps (PyDict (message_of (PyStr "agent-A") "agent-B" "text"
                          (Some [("text", PyStr "Hello!")]) None 1700000000000)) = Ok text /\
    signed_bytes
      (effects (@send sample_ed25519 sample_env "agent-B" "text"
                  (Some [("text", PyStr "Hello!")]) None ready_client))
    = Some (encode_utf8 text).
Proof.
  eexists. split; [reflexivity|].
  apply (@signature_covers_content_fields sample_ed25519 sample_env ready_client
           "agent-B" "text" (Some [("text", PyStr "Hello!")]) None sample_key);
    reflexivity.
Defined.

(** ** The checks of [send] *)

(** C3, as the code has it.  A [send] on a registered client (non-empty
    [agent_id]) that holds no signing key fails with
    [PingError("Must generate or set keys first", 400)], and nothing has been
    serialized, signed or requested by then. *)
Theorem send_without_key_fails_first {ed : Ed25519} (e : env) (c : PingClient)
    (to ty : string) (payload : option dict) (reply_to : option string) :
  truthy (agent_id c) = true ->
  _signing_key c = None ->
  outcome (send e to ty payload reply_to c) =
    Raise (PingError "Must generate or set keys first" 400) /\
  effects (send e to ty payload reply_to c) = [].
Proof.
  intros Ha Hk. rewrite (send_without_key e c to ty payload reply_to Ha Hk).
  split; reflexivity.
Qed.

Lemma send_without_key_fails_first_witness :
  outcome (@send sample_ed25519 sample_env "agent-B" "ping" None None
             (with_agent_id (PyStr "agent-A") fresh_client)) =
    Raise (PingError "Must generate or set keys first" 400) /\
  effects (@send sample_ed25519 sample_env "agent-B" "ping" None None
             (with_agent_id (PyStr "agent-A") fresh_client)) = [].
Proof.
  apply (@send_without_key_fails_first sample_ed25519 sample_env
           (with_agent_id (PyStr "agent-A") fresh_client)); reflexivity.
Defined.

(** C3 as stated fails on a client that is not registered either: the
    check of [agent_id] comes first, and its error is the one raised. *)
Lemma send_unregistered_without_key :
  _signing_key fresh_client = None /\
  outcome (@send sample_ed25519 sample_env "agent-B" "ping" None None fresh_client) =
    Raise (PingError "Must register first (call register())" 400) /\
  outcome (@send sample_ed25519 sample_env "agent-B" "ping" None None fresh_client) <>
    Raise (PingError "Must generate or set keys first" 400).
Proof.
  split; [reflexivity|]. split; [reflexivity|]. cbv. discriminate.
Qed.

(** C10. A [send] that fails one of its two checks raises a [PingError],
    leaves the client as it was (base_url, agent_id, signing key and public
    key) and has produced no effect: nothing serialized, nothing signed,
    nothing requested. *)
Theorem failed_send_changes_nothing {ed : Ed25519} (e : env) (c : PingClient)
    (to ty : string) (payload : option dict) (reply_to : option string) :
  truthy (agent_id c) = false \/ _signing_key c = None ->
  (exists msg, outcome (send e to ty payload reply_to c) = Raise (PingError msg 400)) /\
  base_url (self_after (send e to ty payload reply_to c)) = base_url c /\
  agent_id (self_after (send e to ty payload reply_to c)) = agent_id c /\
  _signing_key (self_after (send e to ty payload reply_to c)) = _signing_key c /\
  _public_key (self_after (send e to ty payload reply_to c)) = _public_key c /\
  effects (send e to ty payload reply_to c) = [] /\
  signed_bytes (effects (send e to ty payload reply_to c)) = None.
Proof.
  intros H.
  destruct (truthy (agent_id c)) eqn:Ha.
  - destruct H as [H|Hk]; [discriminate|].
    rewrite (send_without_key e c to ty payload reply_to Ha Hk).
    split; [eexists; reflexivity|]. repeat split; reflexivity.
  - rewrite (send_unregistered e c to ty payload reply_to Ha).
    split; [eexists; reflexivity|]. repeat split; reflexivity.
Qed.

Lemma failed_send_changes_nothing_witness :
  truthy (agent_id fresh_client) = false /\
  self_after (@send sample_ed25519 sample_env "agent-B" "ping" None None fresh_client)
    = fresh_client /\
  effects (@send sample_ed25519 sample_env "agent-B" "ping" None None fresh_client) = [].
Proof.
  split; [reflexivity|]. split; [reflexivity|].
  apply (@failed_send_changes_nothing sample_ed25519 sample_env fresh_client
           "agent-B" "ping" None None (or_introl eq_refl)).
Defined.

(** ** The optional dependency *)

(** C9. Without PyNaCl, [generate_keys] and [set_keys] (whatever its
    argument) raise [PingError("PyNaCl not installed. Run: pip install
    pynacl", 500)], change nothing and do nothing else. *)
Theorem keys_need_nacl {ed : Ed25519} (e : env) (c : PingClient) :
  NACL_AVAILABLE e = false ->
  generate_keys e c =
    (Raise (PingError "PyNaCl not installed. Run: pip install pynacl" 500), c, []) /\
  forall private_key,
    set_keys e private_key c =
    (Raise (PingError "PyNaCl not installed. Run: pip install pynacl" 500), c, []).
Proof.
  intros H. unfold generate_keys, set_keys. rewrite H. split; reflexivity.
Qed.

Lemma keys_need_nacl_witness :
  @generate_keys sample_ed25519
    {| NACL_AVAILABLE := false; random_seed := sample_seed; time_ms := 0;
       urlopen := fun _ => HttpOk PyNone |} fresh_client =
  (Raise (PingError "PyNaCl not installed. Run: pip install pynacl" 500), fresh_client, []).
Proof.
  apply (@keys_need_nacl sample_ed25519
           {| NACL_AVAILABLE := false; random_seed := sample_seed; time_ms := 0;
              urlopen := fun _ => HttpOk PyNone |} fresh_client).
  reflexivity.
Defined.

(** ** The timestamp *)

(** C6, as the code has it.  [send] has no timestamp parameter: the
    timestamp of the envelope it builds is the integer that
    [int(time.time() * 1000)] gives at the call. *)
Theorem timestamp_is_clock_reading {ed : Ed25519} (e : env) (c : PingClient)
    (to ty : string) (payload : option dict) (reply_to : option string)
    (key : SigningKey) :
  truthy (agent_id c) = true ->
  _signing_key c = Some key ->
  sent_timestamp (effects (send e to ty payload reply_to c)) = Some (PyInt (time_ms e)).
Proof.
  intros Ha Hk.
  destruct (send_starts_with_envelope e c to ty payload reply_to key Ha Hk) as [t Ht].
  rewrite Ht. reflexivity.
Qed.

Lemma timestamp_is_clock_reading_witness :
  sent_timestamp
    (effects (@send sample_ed25519 sample_env "agent-B" "ping" None None ready_client))
  = Some (PyInt 1700000000000).
Proof.
  apply (@timestamp_is_clock_reading sample_ed25519 sample_env ready_client
           "agent-B" "ping" None None sample_key); reflexivity.
Defined.

(** C6 as stated fails: the same call, with the same arguments, on the same
    client, made one millisecond later carries another timestamp; what the
    caller supplies does not determine it. *)
Lemma same_arguments_other_timestamp :
  sent_timestamp
    (effects (@send sample_ed25519 sample_env "agent-B" "ping" None None ready_client))
  = Some (PyInt 1700000000000) /\
  sent_timestamp
    (effects (@send sample_ed25519 later_env "agent-B" "ping" None None ready_client))
  = Some (PyInt 1700000000001) /\
  sent_timestamp
    (effects (@send sample_ed25519 sample_env "agent-B" "ping" None None ready_client))
  <>
  sent_timestamp
    (effects (@send sample_ed25519 later_env "agent-B" "ping" None None ready_client)).
Proof.
  split; [reflexivity|]. split; [reflexivity|]. cbv. discriminate.
Qed.

(** ** Payloads that do not serialize *)

(** C4, as the code has it.  On a client that passes the two checks and
    whose [agent_id] serializes, a payload that [json.dumps] refuses makes
    [send] fail with the exception [json.dumps] raised, a [TypeError] or a
    [ValueError] of Python and not a [PingError]; the client is unchanged,
    nothing is signed and nothing is requested. *)
Theorem unserializable_payload_raises_builtin {ed : Ed25519} (e : env) (c : PingClient)
    (to ty : string) (payload : option dict) (reply_to : option string)
    (key : SigningKey) (from_text : string) (ex : exn) :
  truthy (agent_id c) = true ->
  _signing_key c = Some key ->
  json_dumps (agent_id c) = Ok from_text ->
  json_dumps (PyDict (payload_or_empty payload)) = Raise ex ->
  send e to ty payload reply_to c =
    (Raise ex, c,
     [Dumps (PyDict (message_of (agent_id c) to ty payload reply_to (time_ms e)))]) /\
  is_builtin_encoding_error ex = true /\
  is_PingError ex = false.
Proof.
  intros Ha Hk Hf Hp.
  pose proof (json_encode_raises _ _ Hp) as B.
  split; [|split; [exact B|exact (builtin_error_not_PingError ex B)]].
  apply (send_unserializable e c to ty payload reply_to key ex Ha Hk).
  exact (message_unserializable_payload _ to ty payload reply_to _ from_text ex Hf Hp).
Qed.

Lemma unserializable_payload_raises_builtin_witness :
  outcome (@send sample_ed25519 sample_env "agent-B" "text"
             (Some [("when", PyCycle)]) None ready_client)
  = Raise (ValueError "Circular reference detected").
Proof.
  pose proof (@unserializable_payload_raises_builtin sample_ed25519 sample_env
                ready_client "agent-B" "text" (Some [("when", PyCycle)]) None sample_key
                (encode_basestring_ascii "agent-A")
                (ValueError "Circular reference detected")
                eq_refl eq_refl eq_refl eq_refl) as [H _].
  rewrite H. reflexivity.
Defined.

(** C4 as stated fails: a payload holding a [set] makes [send] raise
    Python's [TypeError], which is not a [PingError], and the package
    defines no other error class. *)
Lemma set_in_payload_raises_TypeError :
  outcome (@send sample_ed25519 sample_env "agent-B" "text"
             (Some [("tags", PyOther "set")]) None ready_client)
  = Raise (TypeError "Object of type set is not JSON serializable") /\
  is_PingError (TypeError "Object of type set is not JSON serializable") = false.
Proof. split; reflexivity. Qed.

(** ** Determinism of the serialization *)

Lemma message_of_payload from to ty p1 p2 reply_to ts :
  payload_or_empty p1 = payload_or_empty p2 ->
  message_of from to ty p1 reply_to ts = message_of from to ty p2 reply_to ts.
Proof. intros H. unfold message_of. rewrite H. reflexivity. Qed.

Lemma send_signed_bytes {ed : Ed25519} (e : env) c to ty payload reply_to key :
  truthy (agent_id c) = true -> _signing_key c = Some key ->
  signed_bytes (effects (send e to ty payload reply_to c)) =
  match json_dumps (PyDict (message_of (agent_id c) to ty payload reply_to (time_ms e))) with
  | Ok text => Some (encode_utf8 text)
  | Raise _ => None
  end.
Proof.
  intros Ha Hk.
  destruct (json_dumps (PyDict (message_of (agent_id c) to ty payload reply_to (time_ms e))))
    as [text|ex] eqn:Hd.
  - destruct (signed_envelope_dumps _ (SigningKey_sign key (encode_utf8 text)) text Hd)
      as [body_text Hb].
    rewrite (send_run e c to ty payload reply_to key text body_text Ha Hk Hd Hb).
    reflexivity.
  - rewrite (send_unserializable e c to ty payload reply_to key ex Ha Hk Hd).
    reflexivity.
Qed.

Lemma json_dumps_message_text from to ty payload reply_to ts text :
  json_dumps (PyDict (message_of from to ty payload reply_to ts)) = Ok text ->
  exists from_text payload_text,
    json_dumps from = Ok from_text /\
    json_dumps (PyDict (payload_or_empty payload)) = Ok payload_text /\
    text = "{" ++ String.concat ", "
                    (message_items from_text to ty payload_text reply_to ts) ++ "}".
Proof.
  unfold json_dumps. rewrite json_encode_dict.
  destruct (dict_items (message_of from to ty payload reply_to ts)) as [ss|] eqn:E;
    [|discriminate].
  intros H. destruct (dict_items_message_inv _ _ _ _ _ _ _ E) as (ft & pt & Hf & Hp & Hs).
  exists ft, pt. split; [exact Hf|]. split; [exact Hp|]. subst ss. congruence.
Qed.

(** C2, as the code has it.  Two runs of [send] on the same six content
    values, the payload being the same dict entry for entry and in the same
    insertion order, sign the same bytes, whatever the rest of the client
    and of the environment; and the text signed lists the six fields in the
    order of the literal in [send]: type, from, to, payload, replyTo,
    timestamp.  The keys inside the payload are written in the insertion
    order of the caller's dict. *)
Theorem serialization_is_deterministic {ed : Ed25519} (e1 e2 : env) (c1 c2 : PingClient)
    (to ty : string) (p1 p2 : option dict) (reply_to : option string)
    (k1 k2 : SigningKey) :
  truthy (agent_id c1) = true ->
  _signing_key c1 = Some k1 ->
  _signing_key c2 = Some k2 ->
  agent_id c1 = agent_id c2 ->
  time_ms e1 = time_ms e2 ->
  payload_or_empty p1 = payload_or_empty p2 ->
  signed_bytes (effects (send e1 to ty p1 reply_to c1)) =
  signed_bytes (effects (send e2 to ty p2 reply_to c2)) /\
  forall text,
    json_dumps (PyDict (message_of (agent_id c1) to ty p1 reply_to (time_ms e1))) = Ok text ->
    signed_bytes (effects (send e1 to ty p1 reply_to c1)) = Some (encode_utf8 text) /\
    exists from_text payload_text,
      json_dumps (agent_id c1) = Ok from_text /\
      json_dumps (PyDict (payload_or_empty p1)) = Ok payload_text /\
      text = "{" ++ String.concat ", "
                      (message_items from_text to ty payload_text reply_to (time_ms e1))
                 ++ "}".
Proof.
  intros Ha Hk1 Hk2 Hid Ht Hp.
  assert (Ha2 : truthy (agent_id c2) = true) by (rewrite <- Hid; exact Ha).
  rewrite (send_signed_bytes e1 c1 to ty p1 reply_to k1 Ha Hk1).
  rewrite (send_signed_bytes e2 c2 to ty p2 reply_to k2 Ha2 Hk2).
  rewrite <- Hid, <- Ht, (message_of_payload _ to ty p1 p2 reply_to _ Hp).
  split; [reflexivity|].
  intros text Hd. rewrite Hd. split; [reflexivity|].
  rewrite <- (message_of_payload _ to ty p1 p2 reply_to _ Hp) in Hd.
  exact (json_dumps_message_text _ _ _ _ _ _ _ Hd).
Qed.

Lemma serialization_is_deterministic_witness :
  signed_bytes (effects (@send sample_ed25519 sample_env "agent-B" "ping" None None
                           ready_client)) =
  signed_bytes (effects (@send sample_ed25519 sample_env "agent-B" "ping" (Some []) None
                           (with_keys sample_key EmptyString ready_client))).
Proof.
  apply (@serialization_is_deterministic sample_ed25519 sample_env sample_env
           ready_client (with_keys sample_key EmptyString ready_client)
           "agent-B" "ping" None (Some []) None sample_key sample_key);
    reflexivity.
Defined.

(** C2 as stated fails: two envelopes that are equal as mappings, their
    payloads holding the same entries in another insertion order, serialize
    to different texts, and [send] signs different bytes for them. *)
Lemma equal_mappings_serialize_differently :
  py_eq (PyDict (message_of (PyStr "agent-A") "agent-B" "text" (Some payload_ab)
                   None 1700000000000))
        (PyDict (message_of (PyStr "agent-A") "agent-B" "text" (Some payload_ba)
                   None 1700000000000)) = true /\
  json_dumps (PyDict (message_of (PyStr "agent-A") "agent-B" "text" (Some payload_ab)
                        None 1700000000000)) <>
  json_dumps (PyDict (message_of (PyStr "agent-A") "agent-B" "text" (Some payload_ba)
                        None 1700000000000)) /\
  signed_bytes (effects (@send sample_ed25519 sample_env "agent-B" "text"
                           (Some payload_ab) None ready_client)) <>
  signed_bytes (effects (@send sample_ed25519 sample_env "agent-B" "text"
                           (Some payload_ba) None ready_client)).
Proof.
  split; [reflexivity|]. split; vm_compute; discriminate.
Qed.

(** ** Hexadecimal key text *)

Lemma unhex_pairs_hex_byte (b : byte) (rest : string) :
  unhex_pairs (hex_byte b ++ rest) =
  match unhex_pairs rest with
  | Some bs => Some (b :: bs)
  | None => None
  end.
Proof. destruct b; reflexivity. Qed.

Lemma unhex_pairs_hexlify (bs : bytes) : unhex_pairs (hexlify bs) = Some bs.
Proof.
  induction bs as [|b bs IH]; [reflexivity|].
  cbn [hexlify]. rewrite unhex_pairs_hex_byte, IH. reflexivity.
Qed.

Lemma hex_digit_is_ascii (c : ascii) : is_hex_digit c = true -> is_ascii c = true.
Proof.
  destruct c as [[] [] [] [] [] [] [] []]; intros H; try reflexivity;
    vm_compute in H; discriminate H.
Qed.

Lemma hex_chars_are_ascii (s : string) :
  all_chars is_hex_digit s = true -> all_chars is_ascii s = true.
Proof.
  induction s as [|c s IH]; [reflexivity|]. cbn [all_chars].
  intros H. apply andb_true_iff in H. destruct H as [Hc Hs].
  rewrite (hex_digit_is_ascii c Hc), (IH Hs). reflexivity.
Qed.

Lemma all_chars_app (p : ascii -> bool) (s t : string) :
  all_chars p (s ++ t) = all_chars p s && all_chars p t.
Proof.
  induction s as [|c s IH]; [reflexivity|].
  cbn [append all_chars]. rewrite IH. apply andb_assoc.
Qed.

Lemma hexlify_hex (bs : bytes) : all_chars is_hex_digit (hexlify bs) = true.
Proof.
  induction bs as [|b bs IH]; [reflexivity|].
  cbn [hexlify]. rewrite all_chars_app, IH, andb_true_r.
  destruct b; reflexivity.
Qed.

Lemma hexlify_length (bs : bytes) : String.length (hexlify bs) = 2 * length bs.
Proof.
  induction bs as [|b bs IH]; [reflexivity|].
  cbn [hexlify hex_byte append String.length length]. rewrite IH. lia.
Qed.

Lemma odd_double (n : nat) : Nat.odd (2 * n) = false.
Proof.
  rewrite <- Nat.negb_even, Nat.even_mul. reflexivity.
Qed.

(** Round trip of the hexadecimal encoding. *)
Lemma unhexlify_hexlify (bs : bytes) : unhexlify (hexlify bs) = Ok bs.
Proof.
  unfold unhexlify.
  rewrite (hex_chars_are_ascii _ (hexlify_hex bs)). cbn [negb].
  rewrite hexlify_length, odd_double, unhex_pairs_hexlify. reflexivity.
Qed.

Lemma unhex_pairs_shape (bs : bytes) :
  forall s, unhex_pairs s = Some bs ->
            String.length s = 2 * length bs /\ all_chars is_hex_digit s = true.
Proof.
  induction bs as [|b bs IH]; intros s H.
  - destruct s as [|h [|l s]]; cbn [unhex_pairs] in H.
    + split; reflexivity.
    + discriminate.
    + destruct (hex_value h), (hex_value l); try discriminate.
      destruct (unhex_pairs s); discriminate.
  - destruct s as [|h [|l s]]; cbn [unhex_pairs] in H; try discriminate.
    cbn [all_chars String.length length].
    destruct (hex_value h) eqn:Eh; [|discriminate].
    destruct (hex_value l) eqn:El; [|discriminate].
    destruct (unhex_pairs s) as [bs'|] eqn:Es; [|discriminate].
    inversion H; subst. destruct (IH s Es) as [L A].
    assert (Hh : is_hex_digit h = true) by (unfold is_hex_digit; rewrite Eh; reflexivity).
    assert (Hl : is_hex_digit l = true) by (unfold is_hex_digit; rewrite El; reflexivity).
    rewrite Hh, Hl, A, L. split; [lia|reflexivity].
Qed.

Lemma unhexlify_shape (s : string) (bs : bytes) :
  unhexlify s = Ok bs ->
  String.length s = 2 * length bs /\ all_chars is_hex_digit s = true.
Proof.
  unfold unhexlify.
  destruct (negb (all_chars is_ascii s)); [discriminate|].
  destruct (Nat.odd (String.length s)); [discriminate|].
  destruct (unhex_pairs s) as [bs'|] eqn:E; [|discriminate].
  intros H. inversion H; subst. exact (unhex_pairs_shape bs s E).
Qed.

Lemma unhexlify_raises (s : string) (ex : exn) :
  unhexlify s = Raise ex -> is_key_decoding_error ex = true.
Proof.
  unfold unhexlify.
  destruct (negb (all_chars is_ascii s)); [intros H; inversion H; reflexivity|].
  destruct (Nat.odd (String.length s)); [intros H; inversion H; reflexivity|].
  destruct (unhex_pairs s); [discriminate|].
  intros H; inversion H; reflexivity.
Qed.

Lemma SigningKey_of_hex_invalid {ed : Ed25519} (s : string) :
  valid_private_key_hex s = false ->
  exists ex, SigningKey_of_hex s = Raise ex /\ is_key_decoding_error ex = true.
Proof.
  intros V. unfold SigningKey_of_hex.
  destruct (unhexlify s) as [bs|ex] eqn:U.
  - destruct (unhexlify_shape s bs U) as [L A].
    unfold SigningKey_new, crypto_sign_SEEDBYTES.
    destruct (length bs =? 32)%nat eqn:E.
    + apply Nat.eqb_eq in E. unfold valid_private_key_hex in V.
      rewrite A, L, E in V. discriminate V.
    + eexists. split; reflexivity.
  - exists ex. split; [reflexivity|]. exact (unhexlify_raises s ex U).
Qed.

Lemma key_decoding_error_not_PingError (ex : exn) :
  is_key_decoding_error ex = true -> is_PingError ex = false.
Proof. destruct ex; simpl; congruence. Qed.

(** ** Loading and generating keys *)

(** C5, as the code has it.  With PyNaCl present, [set_keys] on a text that
    is not 64 hexadecimal digits fails with the exception the constructor of
    [SigningKey] raises, a [ValueError] or a [binascii.Error] and not a
    [PingError]; the client keeps the key it had and nothing else happens. *)
Theorem set_keys_rejects_malformed_key {ed : Ed25519} (e : env) (c : PingClient)
    (private_key : string) :
  NACL_AVAILABLE e = true ->
  valid_private_key_hex private_key = false ->
  exists ex,
    set_keys e private_key c = (Raise ex, c, []) /\
    is_key_decoding_error ex = true /\
    is_PingError ex = false.
Proof.
  intros N V.
  destruct (SigningKey_of_hex_invalid private_key V) as (ex & R & K).
  exists ex. split; [|split; [exact K|exact (key_decoding_error_not_PingError ex K)]].
  unfold set_keys, bind, lift. rewrite N, R. reflexivity.
Qed.

Lemma set_keys_rejects_malformed_key_witness :
  exists ex,
    @set_keys sample_ed25519 sample_env "abcd" ready_client = (Raise ex, ready_client, []) /\
    is_key_decoding_error ex = true /\
    is_PingError ex = false.
Proof.
  apply (@set_keys_rejects_malformed_key sample_ed25519 sample_env ready_client "abcd");
    reflexivity.
Defined.

(** C5 as stated fails: a text that is not hexadecimal makes [set_keys]
    raise [binascii.Error], and a hexadecimal text of another length makes it
    raise [ValueError]; neither is a [PingError], and the package defines no
    other error class. *)
Lemma malformed_key_raises_library_error :
  @set_keys sample_ed25519 sample_env "zz" fresh_client =
    (Raise (BinasciiError "Non-hexadecimal digit found"), fresh_client, []) /\
  @set_keys sample_ed25519 sample_env "abcd" fresh_client =
    (Raise (ValueError "The seed must be exactly 32 bytes long"), fresh_client, []) /\
  is_PingError (BinasciiError "Non-hexadecimal digit found") = false /\
  is_PingError (ValueError "The seed must be exactly 32 bytes long") = false.
Proof. repeat split; reflexivity. Qed.

(** C7. The private key text [generate_keys] returns, given back to
    [set_keys] on any client, decodes to the seed that was generated and
    installs the same signing key and the same public key text. *)
Theorem generated_key_round_trip {ed : Ed25519} (e : env) (c : PingClient) :
  NACL_AVAILABLE e = true ->
  length (random_seed e) = 32 ->
  exists (key : SigningKey) (private_key public_key : string),
    generate_keys e c = (Ok (private_key, public_key), with_keys key public_key c, []) /\
    _seed key = random_seed e /\
    unhexlify private_key = Ok (_seed key) /\
    forall (e' : env) (c' : PingClient),
      NACL_AVAILABLE e' = true ->
      set_keys e' private_key c' = (Ok tt, with_keys key public_key c', []) /\
      _signing_key (self_after (set_keys e' private_key c')) =
        _signing_key (self_after (generate_keys e c)) /\
      _public_key (self_after (set_keys e' private_key c')) = public_key.
Proof.
  intros N L.
  assert (G : SigningKey_new (random_seed e) =
              Ok {| _seed := random_seed e;
                    verify_key := crypto_sign_seed_keypair (random_seed e) |}).
  { unfold SigningKey_new, crypto_sign_SEEDBYTES. rewrite L. reflexivity. }
  exists {| _seed := random_seed e; verify_key := crypto_sign_seed_keypair (random_seed e) |}.
  exists (hexlify (random_seed e)), (hexlify (crypto_sign_seed_keypair (random_seed e))).
  assert (Gen : generate_keys e c =
                (Ok (hexlify (random_seed e),
                     hexlify (crypto_sign_seed_keypair (random_seed e))),
                 with_keys {| _seed := random_seed e;
                              verify_key := crypto_sign_seed_keypair (random_seed e) |}
                   (hexlify (crypto_sign_seed_keypair (random_seed e))) c, [])).
  { unfold generate_keys, bind, lift, get_self, put_self, ret. rewrite N, G. reflexivity. }
  split; [exact Gen|]. split; [reflexivity|].
  split; [apply unhexlify_hexlify|].
  intros e' c' N'.
  assert (S : set_keys e' (hexlify (random_seed e)) c' =
              (Ok tt,
               with_keys {| _seed := random_seed e;
                            verify_key := crypto_sign_seed_keypair (random_seed e) |}
                 (hexlify (crypto_sign_seed_keypair (random_seed e))) c', [])).
  { unfold set_keys, bind, lift, get_self, put_self, SigningKey_of_hex.
    rewrite N', unhexlify_hexlify, G. reflexivity. }
  rewrite S, Gen. repeat split; reflexivity.
Qed.

Lemma generated_key_round_trip_witness :
  exists (key : SigningKey) (private_key public_key : string),
    @generate_keys sample_ed25519 sample_env fresh_client =
      (Ok (private_key, public_key), with_keys key public_key fresh_client, []) /\
    @set_keys sample_ed25519 sample_env private_key ready_client =
      (Ok tt, with_keys key public_key ready_client, []).
Proof.
  destruct (@generated_key_round_trip sample_ed25519 sample_env fresh_client
              eq_refl eq_refl) as (key & priv & pub & G & _ & _ & S).
  exists key, priv, pub. split; [exact G|].
  exact (proj1 (S sample_env ready_client eq_refl)).
Defined.

(** ** What the methods keep of the client *)

Create HintDb inv_db.

Section Invariants.
Context {ed : Ed25519}.
Variable J : PingClient -> Prop.
Hypothesis J_agent : forall a c, J c -> J (with_agent_id a c).
Hypothesis J_keys : forall k pk c, J c -> J (with_keys k pk c).

Lemma inv_ret {A} (a : A) : inv J (ret a).
Proof. intros c H. exact H. Qed.

Lemma inv_raise {A} (ex : exn) : inv J (@raise A ex).
Proof. intros c H. exact H. Qed.

Lemma inv_lift {A} (r : result A) : inv J (lift r).
Proof. intros c H. exact H. Qed.

Lemma inv_emit (ev : event) : inv J (emit ev).
Proof. intros c H. exact H. Qed.

Lemma inv_bind {A B} (m : M A) (k : A -> M B) :
  inv J m -> (forall a, inv J (k a)) -> inv J (bind m k).
Proof.
  intros Hm Hk c Hc. specialize (Hm c Hc).
  unfold bind, self_after in *. destruct (m c) as [[[a|ex] c1] t1]; cbn [fst snd] in *.
  - specialize (Hk a c1 Hm). unfold self_after in Hk.
    destruct (k a c1) as [[r c2] t2]. exact Hk.
  - exact Hm.
Qed.

Lemma inv_get_bind {B} (k : PingClient -> M B) :
  (forall self, J self -> inv J (k self)) -> inv J (bind get_self k).
Proof.
  intros Hk c Hc. specialize (Hk c Hc c Hc).
  unfold bind, get_self, self_after in *.
  destruct (k c c) as [[r c2] t2]. exact Hk.
Qed.

Lemma inv_put_agent (a : pyval) (self : PingClient) :
  J self -> inv J (put_self (with_agent_id a self)).
Proof. intros H c _. apply J_agent. exact H. Qed.

Lemma inv_put_keys (k : SigningKey) (pk : string) (self : PingClient) :
  J self -> inv J (put_self (with_keys k pk self)).
Proof. intros H c _. apply J_keys. exact H. Qed.

Ltac inv_solve :=
  repeat (cbv zeta; first
    [ apply inv_ret | apply inv_raise | apply inv_lift | apply inv_emit
    | apply inv_put_agent; assumption
    | apply inv_get_bind; intros ? ?
    | apply inv_bind; [ | intros ? ]
    | solve [auto with inv_db]
    | match goal with
      | |- inv _ (match ?x with _ => _ end) => destruct x
      end ]).

Variable e : env.

Lemma inv_dumps v : inv J (dumps v).
Proof. unfold dumps. inv_solve. Qed.
Hint Resolve inv_dumps : inv_db.

Lemma inv_require_agent : inv J _require_agent.
Proof. unfold _require_agent. inv_solve. Qed.
Hint Resolve inv_require_agent : inv_db.

Lemma inv_require_keys : inv J _require_keys.
Proof. unfold _require_keys. inv_solve. Qed.
Hint Resolve inv_require_keys : inv_db.

Lemma inv_sign message : inv J (_sign message).
Proof. unfold _sign. inv_solve. Qed.
Hint Resolve inv_sign : inv_db.

Lemma inv_request method path body : inv J (_request e method path body).
Proof. unfold _request. inv_solve. Qed.
Hint Resolve inv_request : inv_db.

Lemma inv_send to ty payload reply_to : inv J (send e to ty payload reply_to).
Proof. unfold send. inv_solve. Qed.
Hint Resolve inv_send : inv_db.

Lemma inv_public_key : inv J public_key.
Proof. unfold public_key. inv_solve. Qed.

Lemma inv_get_agent a : inv J (get_agent e a).
Proof. unfold get_agent. inv_solve. Qed.

Lemma inv_delete_agent : inv J (delete_agent e).
Proof. unfold delete_agent. inv_solve. Qed.

Lemma inv_directory : inv J (directory e).
Proof. unfold directory. inv_solve. Qed.

Lemma inv_search q cap p : inv J (search e q cap p).
Proof. unfold search. inv_solve. Qed.

Lemma inv_contacts : inv J (contacts e).
Proof. unfold contacts. inv_solve. Qed.

Lemma inv_add_contact a b n : inv J (add_contact e a b n).
Proof. unfold add_contact. inv_solve. Qed.

Lemma inv_remove_contact a : inv J (remove_contact e a).
Proof. unfold remove_contact. inv_solve. Qed.

Lemma inv_inbox a : inv J (inbox e a).
Proof. unfold inbox. inv_solve. Qed.

Lemma inv_history o l : inv J (history e o l).
Proof. unfold history. inv_solve. Qed.

Lemma inv_ack m : inv J (ack e m).
Proof. unfold ack. inv_solve. Qed.

Lemma inv_generate_keys : inv J (generate_keys e).
Proof.
  unfold generate_keys. inv_solve. apply inv_put_keys. assumption.
Qed.

Lemma inv_set_keys pk : inv J (set_keys e pk).
Proof.
  unfold set_keys. inv_solve. apply inv_put_keys. assumption.
Qed.

Lemma inv_register n p caps w pub : inv J (register e n p caps w pub).
Proof.
  unfold register. inv_solve; try (apply inv_generate_keys).
Qed.

Lemma inv_bind_from {A B} (m : M A) (k : A -> M B) (c : PingClient) :
  J (self_after (m c)) -> (forall a, inv J (k a)) -> J (self_after (bind m k c)).
Proof.
  intros Hm Hk. unfold bind, self_after in *.
  destruct (m c) as [[[a|ex] c1] t1]; cbn [fst snd] in *.
  - specialize (Hk a c1 Hm). unfold self_after in Hk.
    destruct (k a c1) as [[r c2] t2]. exact Hk.
  - exact Hm.
Qed.

Lemma get_bind_self_after {B} (k : PingClient -> M B) (c : PingClient) :
  self_after (bind get_self k c) = self_after (k c c).
Proof.
  unfold bind, get_self, self_after. destruct (k c c) as [[r c2] t2]. reflexivity.
Qed.

(** [register] without [J_keys]: what holds of the client once the keys
    are there still holds at the end. *)
Lemma register_keeps n p caps w pub (c : PingClient) :
  (if String.eqb (_public_key c) EmptyString
   then J (self_after (generate_keys e c))
   else J c) ->
  J (self_after (register e n p caps w pub c)).
Proof.
  intros H. unfold register. rewrite get_bind_self_after.
  apply inv_bind_from.
  - destruct (String.eqb (_public_key c) EmptyString).
    + apply inv_bind_from; [exact H|]. intros a. apply inv_ret.
    + exact H.
  - intros u. inv_solve.
Qed.

Lemma finish_self {A} (x : result A * PingClient * list event) :
  snd (fst (finish x)) = self_after x.
Proof. destruct x as [[[a|ex] c] t]; reflexivity. Qed.

Lemma perform_keeps (k : call) (c : PingClient) :
  assigns_key k = false -> J c -> J (client_after e k c).
Proof.
  intros N H. unfold client_after.
  destruct k; try discriminate N; cbn [perform]; rewrite finish_self;
    first
      [ exact (inv_public_key c H) | exact (inv_get_agent _ c H)
      | exact (inv_delete_agent c H) | exact (inv_directory c H)
      | exact (inv_search _ _ _ c H) | exact (inv_contacts c H)
      | exact (inv_add_contact _ _ _ c H) | exact (inv_remove_contact _ c H)
      | exact (inv_inbox _ c H) | exact (inv_history _ _ c H)
      | exact (inv_ack _ c H) | exact (inv_send _ _ _ _ c H) ].
Qed.

Lemma perform_keeps_all (k : call) (c : PingClient) :
  J c -> J (client_after e k c).
Proof.
  intros H. destruct (assigns_key k) eqn:N.
  - unfold client_after.
    destruct k; try discriminate N; cbn [perform]; rewrite finish_self;
      first [ exact (inv_generate_keys c H) | exact (inv_set_keys _ c H)
            | exact (inv_register _ _ _ _ _ c H) ].
  - exact (perform_keeps k c N H).
Qed.

End Invariants.

(** ** The held key *)

Lemma same_key_with_agent_id (K : option SigningKey) (a : pyval) (c : PingClient) :
  _signing_key c = K -> _signing_key (with_agent_id a c) = K.
Proof. intros H. exact H. Qed.

Lemma set_with_agent_id (a : pyval) (c : PingClient) :
  held_key c = Set_ -> held_key (with_agent_id a c) = Set_.
Proof. intros H. exact H. Qed.

Lemma set_with_keys (k : SigningKey) (pk : string) (c : PingClient) :
  held_key c = Set_ -> held_key (with_keys k pk c) = Set_.
Proof. intros _. reflexivity. Qed.

Lemma session_keeps_set {ed : Ed25519} (calls : list (env * call)) :
  forall c, held_key c = Set_ -> held_key (session calls c) = Set_.
Proof.
  induction calls as [|[e k] rest IH]; intros c H; [exact H|].
  cbn [session]. apply IH.
  exact (perform_keeps_all (fun c => held_key c = Set_)
           set_with_agent_id set_with_keys e k c H).
Qed.

(** C8. The held key is unset or set.  A call other than [generate_keys],
    [set_keys] and [register] leaves [_signing_key] as it was; [register]
    leaves it as it was when a public key is held and otherwise as its call
    of [generate_keys] leaves it; and no call, nor any sequence of calls,
    takes a client whose key is set to one whose key is unset. *)
Theorem held_key_never_reverts {ed : Ed25519} :
  (forall c, held_key c = Unset \/ held_key c = Set_) /\
  (forall e k c,
     assigns_key k = false ->
     _signing_key (client_after e k c) = _signing_key c) /\
  (forall e n p caps w pub c,
     _signing_key (client_after e (Call_register n p caps w pub) c) =
     if String.eqb (_public_key c) EmptyString
     then _signing_key (self_after (generate_keys e c))
     else _signing_key c) /\
  (forall e k c, held_key c = Set_ -> held_key (client_after e k c) = Set_) /\
  (forall calls c, held_key c = Set_ -> held_key (session calls c) = Set_).
Proof.
  split; [|split; [|split; [|split]]].
  - intros c. unfold held_key. destruct (_signing_key c); [right|left]; reflexivity.
  - intros e k c N.
    exact (perform_keeps (fun c' => _signing_key c' = _signing_key c)
             (same_key_with_agent_id (_signing_key c)) e k c N eq_refl).
  - intros e n p caps w pub c. unfold client_after. cbn [perform].
    rewrite finish_self.
    apply (register_keeps
             (fun c' => _signing_key c' =
                        if String.eqb (_public_key c) EmptyString
                        then _signing_key (self_after (generate_keys e c))
                        else _signing_key c)
             (same_key_with_agent_id _) e n p caps w pub c).
    destruct (String.eqb (_public_key c) EmptyString); reflexivity.
  - intros e k c H.
    exact (perform_keeps_all (fun c => held_key c = Set_)
             set_with_agent_id set_with_keys e k c H).
  - intros calls c H. exact (session_keeps_set calls c H).
Qed.

Lemma held_key_never_reverts_witness :
  held_key
    (@session sample_ed25519
       [ (sample_env, Call_delete_agent);
         (sample_env, Call_set_keys "zz");
         (sample_env, Call_register "bot" "python" None None false);
         (later_env, Call_ping "agent-B") ]
       ready_client) = Set_.
Proof.
  apply (@held_key_never_reverts sample_ed25519). reflexivity.
Defined.

(** The two assignments: from unset to set. *)
Example generate_keys_sets_key :
  held_key fresh_client = Unset /\
  held_key (@client_after sample_ed25519 sample_env Call_generate_keys fresh_client) = Set_ /\
  held_key (@client_after sample_ed25519 sample_env
              (Call_set_keys (hexlify sample_seed)) fresh_client) = Set_ /\
  held_key (@client_after sample_ed25519 sample_env
              (Call_register "bot" "python" None None false) fresh_client) = Set_.
Proof. repeat split; reflexivity. Qed.

(** A client built with the default arguments holds no key; built with a
    private key text, it holds the key of that text. *)
Example constructed_client :
  @__init__ sample_ed25519 sample_env "http://localhost:3100/" None None =
    (Ok tt, fresh_client, []) /\
  held_key (self_after (@__init__ sample_ed25519 sample_env "http://localhost:3100"
                          (Some (hexlify sample_seed)) (Some "agent-A"))) = Set_.
Proof. split; reflexivity. Qed.

(** ** The guard of registration *)

(** X1. On a client whose [agent_id] is empty, every method that starts
    with [_require_agent] ([delete_agent], the contact methods, [send] and
    the methods built on it, [inbox], [history]) raises
    [PingError("Must register first (call register())", 400)], makes no
    request and leaves the client as it was. *)
Theorem unregistered_calls_fail {ed : Ed25519} (e : env) (k : call) (c : PingClient) :
  truthy (agent_id c) = false ->
  needs_agent k = true ->
  perform e k c =
    (Some (PingError "Must register first (call register())" 400), c, []).
Proof.
  intros H N.
  destruct k; try discriminate N; cbn [perform];
    unfold delete_agent, contacts, add_contact, remove_contact, inbox, history,
      text, ping, pong, request, respond, propose, signature, send,
      _require_agent, bind, get_self, raise;
    rewrite H; reflexivity.
Qed.

Lemma unregistered_calls_fail_witness :
  @perform sample_ed25519 sample_env (Call_inbox true) fresh_client =
    (Some (PingError "Must register first (call register())" 400), fresh_client, []).
Proof.
  apply (@unregistered_calls_fail sample_ed25519 sample_env (Call_inbox true) fresh_client);
    reflexivity.
Defined.

(** ** Requests *)

(** X2. [_request] never changes the client.  Without a body it makes one
    request to [base_url] followed by the path; with a body it posts the
    UTF-8 bytes of [json.dumps(body)], and when the body does not serialize
    it raises what [json.dumps] raised and makes no request.  The outcome
    is the decoded answer, or for an [HTTPError] a [PingError] with the
    status code of the answer. *)
Theorem request_behaviour (e : env) (method : string) (path : fstring)
    (body : option pyval) (c : PingClient) :
  self_after (_request e method path body c) = c /\
  match body with
  | None =>
      _request e method path None c =
        (answer (urlopen e (request_of c method path None)), c,
         [Requested (request_of c method path None)])
  | Some b =>
      match json_dumps b with
      | Ok text =>
          _request e method path (Some b) c =
            (answer (urlopen e (request_of c method path (Some (encode_utf8 text)))), c,
             [Dumps b; Requested (request_of c method path (Some (encode_utf8 text)))])
      | Raise ex =>
          _request e method path (Some b) c = (Raise ex, c, [Dumps b])
      end
  end /\
  forall r code str_e error_body,
    urlopen e r = HttpError code str_e error_body ->
    exists message, answer (urlopen e r) = Raise (PingError message code).
Proof.
  split; [|split].
  - unfold _request, dumps, bind, get_self, emit, lift, ret, self_after.
    destruct body as [b|]; [destruct (json_dumps b)|]; reflexivity.
  - unfold _request, dumps, bind, get_self, emit, lift, ret, request_of.
    destruct body as [b|]; [destruct (json_dumps b)|]; reflexivity.
  - intros r code str_e error_body H. rewrite H.
    destruct error_body as [[m|]|]; eexists; reflexivity.
Qed.

(** ** The shape of a [send] *)

(** X3. Whatever the client and the arguments, [send] leaves the client
    unchanged and does one of three things: nothing (a check failed); one
    attempt to serialize the envelope, which failed; or, in this order,
    serialize the envelope, sign its bytes, serialize the envelope with the
    signature, and make one POST to [/messages].  It never makes a request
    without having signed. *)
Theorem send_effects_shape {ed : Ed25519} (e : env) (c : PingClient)
    (to ty : string) (payload : option dict) (reply_to : option string) :
  self_after (send e to ty payload reply_to c) = c /\
  (effects (send e to ty payload reply_to c) = [] \/
   (exists ex,
      send e to ty payload reply_to c =
      (Raise ex, c,
       [Dumps (PyDict (message_of (agent_id c) to ty payload reply_to (time_ms e)))])) \/
   (exists key text body_text,
      _signing_key c = Some key /\
      json_dumps (PyDict (message_of (agent_id c) to ty payload reply_to (time_ms e)))
        = Ok text /\
      effects (send e to ty payload reply_to c) =
      [ Dumps (PyDict (message_of (agent_id c) to ty payload reply_to (time_ms e)));
        Signed (encode_utf8 text) (SigningKey_sign key (encode_utf8 text));
        Dumps (PyDict (signed_envelope
                         (message_of (agent_id c) to ty payload reply_to (time_ms e))
                         (SigningKey_sign key (encode_utf8 text))));
        Requested (post_messages c body_text) ])).
Proof.
  destruct (truthy (agent_id c)) eqn:Ha.
  2:{ rewrite (send_unregistered e c to ty payload reply_to Ha).
      split; [reflexivity|left; reflexivity]. }
  destruct (_signing_key c) as [key|] eqn:Hk.
  2:{ rewrite (send_without_key e c to ty payload reply_to Ha Hk).
      split; [reflexivity|left; reflexivity]. }
  destruct (json_dumps (PyDict (message_of (agent_id c) to ty payload reply_to (time_ms e))))
    as [text|ex] eqn:Hd.
  - destruct (signed_envelope_dumps _ (SigningKey_sign key (encode_utf8 text)) text Hd)
      as [body_text Hb].
    rewrite (send_run e c to ty payload reply_to key text body_text Ha Hk Hd Hb).
    split; [reflexivity|]. right. right.
    exists key, text, body_text. repeat split; reflexivity.
  - rewrite (send_unserializable e c to ty payload reply_to key ex Ha Hk Hd).
    split; [reflexivity|]. right. left. exists ex. reflexivity.
Qed.



(** ** Registration and deletion *)

Lemma list_items_strings (l : list string) :
  list_items (map PyStr l) = Ok (map encode_basestring_ascii l).
Proof.
  induction l as [|x l IH]; [reflexivity|].
  cbn [map list_items json_encode]. rewrite IH. reflexivity.
Qed.

Lemma register_body_dumps pk n p caps w pub :
  exists text, json_dumps (register_body pk n p caps w pub) = Ok text.
Proof.
  unfold json_dumps, register_body. rewrite json_encode_dict.
  cbn [dict_items]. rewrite json_encode_list, list_items_strings.
  cbn [json_encode]. destruct w, pub; eexists; reflexivity.
Qed.

(** The request of [register] and what follows it, on the client [c1] that
    the key step left. *)
Lemma register_after_keys {ed : Ed25519} (e : env) n p caps w pub
    (c c1 : PingClient) (text : string) :
  (if String.eqb (_public_key c) EmptyString
   then generate_keys e ;;; ret tt
   else ret tt) c = (Ok tt, c1, []) ->
  json_dumps (register_body (_public_key c1) n p caps w pub) = Ok text ->
  register e n p caps w pub c =
  match answer (urlopen e (request_of c1 "POST" [PyStr "/agents"] (Some (encode_utf8 text)))) with
  | Raise ex =>
      (Raise ex, c1,
       [ Dumps (register_body (_public_key c1) n p caps w pub);
         Requested (request_of c1 "POST" [PyStr "/agents"] (Some (encode_utf8 text))) ])
  | Ok data =>
      match getitem data "id" with
      | Raise ex =>
          (Raise ex, c1,
           [ Dumps (register_body (_public_key c1) n p caps w pub);
             Requested (request_of c1 "POST" [PyStr "/agents"] (Some (encode_utf8 text))) ])
      | Ok new_id =>
          (Agent_of data, with_agent_id new_id c1,
           [ Dumps (register_body (_public_key c1) n p caps w pub);
             Requested (request_of c1 "POST" [PyStr "/agents"] (Some (encode_utf8 text))) ])
      end
  end.
Proof.
  intros K D. unfold register.
  unfold bind at 1. unfold get_self at 1.
  unfold bind at 1. rewrite K.
  unfold bind at 1. unfold get_self at 1.
  fold (register_body (_public_key c1) n p caps w pub).
  destruct (request_behaviour e "POST" [PyStr "/agents"]
              (Some (register_body (_public_key c1) n p caps w pub)) c1) as (_ & R & _).
  rewrite D in R. unfold bind at 1. rewrite R.
  destruct (answer _) as [data|ex]; [|reflexivity].
  unfold bind, lift, get_self, put_self.
  destruct (getitem data "id") as [new_id|ex]; [|reflexivity].
  destruct (Agent_of data); reflexivity.
Qed.

(** X5. [register] on a client that holds a public key keeps the keys,
    posts that public key, and assigns [agent_id] from the [id] of the
    answer before it reads the other fields: an answer with an [id] and
    without [publicKey], [name] or [provider] makes [register] raise
    [KeyError] on a client that is registered all the same.  When the
    request fails or the answer has no [id], the client is unchanged. *)
Theorem register_assigns_id_first {ed : Ed25519} (e : env) (n p : string)
    (caps : option (list string)) (w : option string) (pub : bool) (c : PingClient) :
  String.eqb (_public_key c) EmptyString = false ->
  exists text,
    json_dumps (register_body (_public_key c) n p caps w pub) = Ok text /\
    requests (effects (register e n p caps w pub c)) =
      [request_of c "POST" [PyStr "/agents"] (Some (encode_utf8 text))] /\
    match answer (urlopen e (request_of c "POST" [PyStr "/agents"] (Some (encode_utf8 text)))) with
    | Raise ex =>
        outcome (register e n p caps w pub c) = Raise ex /\
        self_after (register e n p caps w pub c) = c
    | Ok data =>
        match getitem data "id" with
        | Raise ex =>
            outcome (register e n p caps w pub c) = Raise ex /\
            self_after (register e n p caps w pub c) = c
        | Ok new_id =>
            outcome (register e n p caps w pub c) = Agent_of data /\
            self_after (register e n p caps w pub c) = with_agent_id new_id c
        end
    end.
Proof.
  intros H.
  destruct (register_body_dumps (_public_key c) n p caps w pub) as [text D].
  exists text. split; [exact D|].
  assert (K : (if String.eqb (_public_key c) EmptyString
               then generate_keys e ;;; ret tt else ret tt) c = (Ok tt, c, []))
    by (rewrite H; reflexivity).
  rewrite (register_after_keys e n p caps w pub c c text K D).
  destruct (answer _) as [data|ex]; [|repeat split; reflexivity].
  destruct (getitem data "id"); repeat split; reflexivity.
Qed.

Lemma register_assigns_id_first_witness :
  exists text,
    json_dumps (register_body (_public_key ready_client) "bot" "python" None None false)
      = Ok text /\
    requests (effects (@register sample_ed25519 sample_env "bot" "python" None None false
                         ready_client)) =
      [request_of ready_client "POST" [PyStr "/agents"] (Some (encode_utf8 text))].
Proof.
  destruct (@register_assigns_id_first sample_ed25519 sample_env "bot" "python" None None
              false ready_client eq_refl) as (text & D & R & _).
  exists text. split; [exact D|exact R].
Defined.

(** An answer with an [id] and nothing else: [KeyError], on a client that
    now carries that [id]. *)
Example register_partial_answer :
  outcome (@register sample_ed25519 sample_env "bot" "python" None None false ready_client)
    = Raise (KeyError "publicKey") /\
  agent_id (self_after (@register sample_ed25519 sample_env "bot" "python" None None false
                          ready_client)) = PyStr "msg-1".
Proof. split; reflexivity. Qed.

(** X6. Without PyNaCl, [register] on a client that holds no public key
    raises [PingError("PyNaCl not installed. Run: pip install pynacl", 500)]
    before any request, and the client is unchanged. *)
Theorem register_needs_nacl {ed : Ed25519} (e : env) (n p : string)
    (caps : option (list string)) (w : option string) (pub : bool) (c : PingClient) :
  NACL_AVAILABLE e = false ->
  _public_key c = EmptyString ->
  register e n p caps w pub c =
    (Raise (PingError "PyNaCl not installed. Run: pip install pynacl" 500), c, []).
Proof.
  intros N H. unfold register, generate_keys, bind, get_self, raise.
  rewrite H, N. reflexivity.
Qed.

Lemma register_needs_nacl_witness :
  @register sample_ed25519 bare_env "bot" "python" None None false fresh_client =
    (Raise (PingError "PyNaCl not installed. Run: pip install pynacl" 500), fresh_client, []).
Proof.
  apply (@register_needs_nacl sample_ed25519 bare_env); reflexivity.
Defined.

(** X7. [register] on a client that holds no public key generates the key
    pair before the request and posts the new public key; when the request
    then fails, the error is raised on a client that holds the new keys and
    has no [agent_id] assigned. *)
Theorem register_keeps_generated_keys {ed : Ed25519} (e : env) (n p : string)
    (caps : option (list string)) (w : option string) (pub : bool) (c : PingClient) :
  NACL_AVAILABLE e = true ->
  length (random_seed e) = 32 ->
  _public_key c = EmptyString ->
  exists key text,
    _seed key = random_seed e /\
    json_dumps (register_body (VerifyKey_hex key) n p caps w pub) = Ok text /\
    requests (effects (register e n p caps w pub c)) =
      [request_of c "POST" [PyStr "/agents"] (Some (encode_utf8 text))] /\
    forall ex,
      answer (urlopen e (request_of c "POST" [PyStr "/agents"] (Some (encode_utf8 text))))
        = Raise ex ->
      outcome (register e n p caps w pub c) = Raise ex /\
      self_after (register e n p caps w pub c) = with_keys key (VerifyKey_hex key) c.
Proof.
  intros N L H.
  set (key := {| _seed := random_seed e;
                 verify_key := crypto_sign_seed_keypair (random_seed e) |}).
  assert (K : (if String.eqb (_public_key c) EmptyString
               then generate_keys e ;;; ret tt else ret tt) c =
              (Ok tt, with_keys key (VerifyKey_hex key) c, [])).
  { rewrite H. cbn [String.eqb].
    unfold generate_keys, SigningKey_new, crypto_sign_SEEDBYTES, bind, lift, get_self,
      put_self, ret.
    rewrite N, L. reflexivity. }
  destruct (register_body_dumps (VerifyKey_hex key) n p caps w pub) as [text D].
  exists key, text. split; [reflexivity|]. split; [exact D|].
  pose proof (register_after_keys e n p caps w pub c _ text K D) as R.
  change (request_of (with_keys key (VerifyKey_hex key) c))
    with (request_of c) in R.
  rewrite R. split.
  - destruct (answer _) as [data|ex]; [|reflexivity].
    destruct (getitem data "id"); reflexivity.
  - intros ex A. rewrite A. split; reflexivity.
Qed.

Lemma register_keeps_generated_keys_witness :
  held_key fresh_client = Unset /\
  outcome (@register sample_ed25519 refusing_env "bot" "python" None None false fresh_client)
    = Raise (PingError "forbidden" 403) /\
  held_key (self_after (@register sample_ed25519 refusing_env "bot" "python" None None false
                          fresh_client)) = Set_.
Proof.
  destruct (@register_keeps_generated_keys sample_ed25519 refusing_env "bot" "python"
              None None false fresh_client eq_refl eq_refl eq_refl)
    as (key & text & _ & _ & _ & F).
  destruct (F (PingError "forbidden" 403) eq_refl) as [O S].
  split; [reflexivity|]. split; [exact O|]. rewrite S. reflexivity.
Defined.

(** X8. [delete_agent] on a registered client makes one DELETE request for
    [/agents/<agent_id>]; it empties [agent_id] when the request succeeds
    and leaves it when the request fails; after a successful deletion every
    method guarded by [_require_agent] fails with the registration error. *)
Theorem delete_agent_clears_on_success {ed : Ed25519} (e : env) (c : PingClient) :
  truthy (agent_id c) = true ->
  effects (delete_agent e c) =
    [Requested (request_of c "DELETE" [PyStr "/agents/"; agent_id c] None)] /\
  match answer (urlopen e (request_of c "DELETE" [PyStr "/agents/"; agent_id c] None)) with
  | Ok _ =>
      outcome (delete_agent e c) = Ok tt /\
      self_after (delete_agent e c) = with_agent_id (PyStr EmptyString) c /\
      forall e' k,
        needs_agent k = true ->
        perform e' k (self_after (delete_agent e c)) =
          (Some (PingError "Must register first (call register())" 400),
           self_after (delete_agent e c), [])
  | Raise ex =>
      outcome (delete_agent e c) = Raise ex /\
      self_after (delete_agent e c) = c
  end.
Proof.
  intros H.
  assert (R : delete_agent e c =
              match answer (urlopen e (request_of c "DELETE"
                                         [PyStr "/agents/"; agent_id c] None)) with
              | Ok _ => (Ok tt, with_agent_id (PyStr EmptyString) c,
                         [Requested (request_of c "DELETE"
                                       [PyStr "/agents/"; agent_id c] None)])
              | Raise ex => (Raise ex, c,
                             [Requested (request_of c "DELETE"
                                           [PyStr "/agents/"; agent_id c] None)])
              end).
  { unfold delete_agent, _require_agent, _request, request_of, bind, get_self, put_self,
      emit, lift, ret, raise.
    rewrite H. cbn [negb]. destruct (answer _); reflexivity. }
  rewrite R. destruct (answer _) as [v|ex].
  - split; [reflexivity|]. split; [reflexivity|]. split; [reflexivity|].
    intros e' k N. destruct k; try discriminate N; reflexivity.
  - repeat split; reflexivity.
Qed.

Lemma delete_agent_clears_on_success_witness :
  self_after (delete_agent sample_env ready_client) =
    with_agent_id (PyStr EmptyString) ready_client /\
  self_after (delete_agent refusing_env ready_client) = ready_client.
Proof.
  split.
  - apply (@delete_agent_clears_on_success sample_ed25519 sample_env ready_client eq_refl).
  - apply (@delete_agent_clears_on_success sample_ed25519 refusing_env ready_client eq_refl).
Defined.

(** ** Key texts that [set_keys] accepts *)

Lemma unhex_pairs_total (n : nat) :
  forall s, String.length s = 2 * n -> all_chars is_hex_digit s = true ->
            exists bs, unhex_pairs s = Some bs /\ length bs = n.
Proof.
  induction n as [|n IH]; intros s L A.
  - destruct s; [|discriminate L]. exists []. split; reflexivity.
  - destruct s as [|h [|l s]]; cbn [String.length] in L; try lia.
    cbn [all_chars] in A.
    apply andb_true_iff in A. destruct A as [Hh A].
    apply andb_true_iff in A. destruct A as [Hl A].
    destruct (IH s ltac:(lia) A) as (bs & U & Lb).
    unfold is_hex_digit in Hh, Hl.
    destruct (hex_value h) as [vh|] eqn:Eh; [|discriminate Hh].
    destruct (hex_value l) as [vl|] eqn:El; [|discriminate Hl].
    exists (byte_of_N (16 * vh + vl) :: bs).
    cbn [unhex_pairs]. rewrite Eh, El, U. split; [reflexivity|].
    cbn [length]. rewrite Lb. reflexivity.
Qed.

Lemma unhexlify_valid (s : string) :
  valid_private_key_hex s = true ->
  exists seed, unhexlify s = Ok seed /\ length seed = 32.
Proof.
  unfold valid_private_key_hex. intros V.
  apply andb_true_iff in V. destruct V as [L A]. apply Nat.eqb_eq in L.
  destruct (unhex_pairs_total 32 s L A) as (bs & U & Lb).
  exists bs. split; [|exact Lb].
  unfold unhexlify. rewrite (hex_chars_are_ascii s A), L, U. reflexivity.
Qed.

(** X9. With PyNaCl present, [set_keys] on a text of 64 hexadecimal
    digits (upper or lower case) succeeds: the text decodes to a seed of 32
    bytes, and the client then holds the key of that seed and the lowercase
    hexadecimal text of its public key, whatever it held before. *)
Theorem set_keys_accepts_valid_key {ed : Ed25519} (e : env) (c : PingClient)
    (private_key : string) :
  NACL_AVAILABLE e = true ->
  valid_private_key_hex private_key = true ->
  exists seed,
    unhexlify private_key = Ok seed /\
    length seed = 32 /\
    set_keys e private_key c =
      (Ok tt,
       with_keys {| _seed := seed; verify_key := crypto_sign_seed_keypair seed |}
         (hexlify (crypto_sign_seed_keypair seed)) c,
       []).
Proof.
  intros N V. destruct (unhexlify_valid private_key V) as (seed & U & L).
  exists seed. split; [exact U|]. split; [exact L|].
  unfold set_keys, SigningKey_of_hex, SigningKey_new, crypto_sign_SEEDBYTES,
    bind, lift, get_self, put_self.
  rewrite N, U, L. reflexivity.
Qed.

Lemma set_keys_accepts_valid_key_witness :
  exists seed,
    unhexlify "00112233445566778899AABBCCDDEEFF00112233445566778899aabbccddeeff" = Ok seed /\
    length seed = 32 /\
    @set_keys sample_ed25519 sample_env
      "00112233445566778899AABBCCDDEEFF00112233445566778899aabbccddeeff" ready_client =
      (Ok tt,
       with_keys {| _seed := seed; verify_key := rev seed |} (hexlify (rev seed))
         ready_client,
       []).
Proof.
  apply (@set_keys_accepts_valid_key sample_ed25519 sample_env ready_client); reflexivity.
Defined.

(** ** Generated keys *)

(** X10. With PyNaCl present and a 32-byte seed drawn, [generate_keys]
    succeeds on any client, replacing whatever key it held: the private key
    text it returns is 64 hexadecimal digits, one that [set_keys] accepts,
    and the public key text it returns is the one the [public_key] property
    gives afterwards. *)
Theorem generate_keys_returns_valid_texts {ed : Ed25519} (e : env) (c : PingClient) :
  NACL_AVAILABLE e = true ->
  length (random_seed e) = 32 ->
  exists private_key public_key_text,
    outcome (generate_keys e c) = Ok (private_key, public_key_text) /\
    valid_private_key_hex private_key = true /\
    outcome (public_key (self_after (generate_keys e c))) = Ok public_key_text /\
    held_key (self_after (generate_keys e c)) = Set_ /\
    effects (generate_keys e c) = [].
Proof.
  intros N L.
  exists (hexlify (random_seed e)), (hexlify (crypto_sign_seed_keypair (random_seed e))).
  assert (G : generate_keys e c =
              (Ok (hexlify (random_seed e),
                   hexlify (crypto_sign_seed_keypair (random_seed e))),
               with_keys {| _seed := random_seed e;
                            verify_key := crypto_sign_seed_keypair (random_seed e) |}
                 (hexlify (crypto_sign_seed_keypair (random_seed e))) c, [])).
  { unfold generate_keys, SigningKey_new, crypto_sign_SEEDBYTES, bind, lift, get_self,
      put_self, ret.
    rewrite N, L. reflexivity. }
  rewrite G. split; [reflexivity|]. split.
  - unfold valid_private_key_hex. rewrite hexlify_length, L, hexlify_hex. reflexivity.
  - repeat split; reflexivity.
Qed.

Lemma generate_keys_returns_valid_texts_witness :
  exists private_key public_key_text,
    outcome (@generate_keys sample_ed25519 sample_env ready_client) =
      Ok (private_key, public_key_text) /\
    valid_private_key_hex private_key = true.
Proof.
  destruct (@generate_keys_returns_valid_texts sample_ed25519 sample_env ready_client
              eq_refl eq_refl) as (priv & pub & O & V & _).
  exists priv, pub. split; [exact O|exact V].
Defined.

(** ** The public key text follows the held key *)

Lemma consistent_with_agent_id (a : pyval) (c : PingClient) :
  keys_consistent c -> keys_consistent (with_agent_id a c).
Proof. intros H. exact H. Qed.

Lemma consistent_generate_keys {ed : Ed25519} (e : env) (c : PingClient) :
  keys_consistent c -> keys_consistent (self_after (generate_keys e c)).
Proof.
  intros H. unfold generate_keys, SigningKey_new, bind, lift, get_self, put_self, ret, raise.
  destruct (negb (NACL_AVAILABLE e)); [exact H|].
  destruct (negb _); [exact H|]. reflexivity.
Qed.

Lemma consistent_set_keys {ed : Ed25519} (e : env) (pk : string) (c : PingClient) :
  keys_consistent c -> keys_consistent (self_after (set_keys e pk c)).
Proof.
  intros H.
  unfold set_keys, SigningKey_of_hex, SigningKey_new, bind, lift, get_self, put_self, raise.
  destruct (negb (NACL_AVAILABLE e)); [exact H|].
  destruct (unhexlify pk); [|exact H].
  destruct (negb _); [exact H|]. reflexivity.
Qed.

Lemma consistent_perform {ed : Ed25519} (e : env) (k : call) (c : PingClient) :
  keys_consistent c -> keys_consistent (client_after e k c).
Proof.
  intros H. destruct (assigns_key k) eqn:N.
  - unfold client_after.
    destruct k; try discriminate N; cbn [perform]; rewrite finish_self.
    + exact (consistent_generate_keys e c H).
    + exact (consistent_set_keys e _ c H).
    + apply (register_keeps keys_consistent consistent_with_agent_id).
      destruct (String.eqb (_public_key c) EmptyString);
        [exact (consistent_generate_keys e c H)|exact H].
  - exact (perform_keeps keys_consistent consistent_with_agent_id e k c N H).
Qed.

(** X11. On a client built by the constructor, and after any sequence of
    calls on it, the public key text is the lowercase hexadecimal text of
    the public key of the held signing key, and is empty while no key is
    held: the two attributes never disagree. *)
Theorem public_key_follows_signing_key {ed : Ed25519} :
  (forall e b pk a, keys_consistent (self_after (__init__ e b pk a))) /\
  (forall e k c, keys_consistent c -> keys_consistent (client_after e k c)) /\
  (forall calls c, keys_consistent c -> keys_consistent (session calls c)).
Proof.
  split; [|split].
  - intros e b pk a. unfold __init__.
    destruct (nonempty pk) as [k|]; [|reflexivity].
    apply consistent_set_keys. reflexivity.
  - intros e k c H. exact (consistent_perform e k c H).
  - intros calls. induction calls as [|[e k] rest IH]; intros c H; [exact H|].
    cbn [session]. apply IH. exact (consistent_perform e k c H).
Qed.

Lemma public_key_follows_signing_key_witness :
  keys_consistent
    (@session sample_ed25519
       [ (sample_env, Call_generate_keys);
         (sample_env, Call_register "bot" "python" None None false);
         (refusing_env, Call_set_keys "zz") ]
       fresh_client).
Proof.
  apply (@public_key_follows_signing_key sample_ed25519). reflexivity.
Defined.

(** ** The constructor and the attributes no call assigns *)

Lemma rstrip_slash_no_slash (s : string) : ends_with_slash (rstrip_slash s) = false.
Proof.
  induction s as [|c s IH]; [reflexivity|].
  cbn [rstrip_slash]. destruct (rstrip_slash s) as [|a r].
  - destruct (Ascii.eqb c "/") eqn:E; [reflexivity|]. cbn [ends_with_slash]. exact E.
  - exact IH.
Qed.

Lemma rstrip_slash_suffix (s : string) : exists n, s = rstrip_slash s ++ slashes n.
Proof.
  induction s as [|c s [n IH]]; [exists 0; reflexivity|].
  cbn [rstrip_slash]. destruct (rstrip_slash s) as [|a r].
  - cbn [append] in IH. destruct (Ascii.eqb c "/") eqn:E.
    + apply Ascii.eqb_eq in E. subst c. exists (S n). rewrite IH. reflexivity.
    + exists n. rewrite IH. reflexivity.
  - exists n. cbn [append] in *. rewrite IH at 1. reflexivity.
Qed.

Lemma base_url_with_agent_id (b : string) (a : pyval) (c : PingClient) :
  base_url c = b -> base_url (with_agent_id a c) = b.
Proof. intros H. exact H. Qed.

Lemma base_url_with_keys (b : string) (k : SigningKey) (pk : string) (c : PingClient) :
  base_url c = b -> base_url (with_keys k pk c) = b.
Proof. intros H. exact H. Qed.

Lemma agent_id_with_keys (a : pyval) (k : SigningKey) (pk : string) (c : PingClient) :
  agent_id c = a -> agent_id (with_keys k pk c) = a.
Proof. intros H. exact H. Qed.

(** X12. The constructor strips every trailing slash of [base_url] and
    nothing else; a client built without [agent_id] (or with an empty one)
    is unregistered; built without a private key (or with an empty one) it
    holds no key and construction cannot fail; built with a private key
    when PyNaCl is missing, construction raises the PyNaCl [PingError]. *)
Theorem constructed_client_state {ed : Ed25519} (e : env) (b : string)
    (pk a : option string) :
  base_url (self_after (__init__ e b pk a)) = rstrip_slash b /\
  ends_with_slash (base_url (self_after (__init__ e b pk a))) = false /\
  (exists n, b = base_url (self_after (__init__ e b pk a)) ++ slashes n) /\
  (nonempty a = None -> truthy (agent_id (self_after (__init__ e b pk a))) = false) /\
  (forall x, nonempty a = Some x -> agent_id (self_after (__init__ e b pk a)) = PyStr x) /\
  (nonempty pk = None ->
   outcome (__init__ e b pk a) = Ok tt /\
   held_key (self_after (__init__ e b pk a)) = Unset) /\
  (forall k, nonempty pk = Some k -> NACL_AVAILABLE e = false ->
   outcome (__init__ e b pk a) =
     Raise (PingError "PyNaCl not installed. Run: pip install pynacl" 500)).
Proof.
  assert (B : base_url (self_after (__init__ e b pk a)) = rstrip_slash b).
  { unfold __init__. destruct (nonempty pk) as [k|]; [|reflexivity].
    apply (inv_set_keys (fun c => base_url c = rstrip_slash b)
             (base_url_with_keys (rstrip_slash b)) e k).
    reflexivity. }
  assert (A : forall v,
             (match nonempty a with Some x => PyStr x | None => PyStr EmptyString end) = v ->
             agent_id (self_after (__init__ e b pk a)) = v).
  { intros v Hv. unfold __init__. destruct (nonempty pk) as [k|]; [|exact Hv].
    apply (inv_set_keys (fun c => agent_id c = v) (agent_id_with_keys v) e k).
    exact Hv. }
  split; [exact B|]. split; [rewrite B; apply rstrip_slash_no_slash|].
  split; [rewrite B; apply rstrip_slash_suffix|].
  split; [intros H; rewrite (A (PyStr EmptyString)); [reflexivity|rewrite H; reflexivity]|].
  split; [intros x H; apply A; rewrite H; reflexivity|].
  split.
  - intros H. unfold __init__. rewrite H. split; reflexivity.
  - intros k H N. unfold __init__, set_keys. rewrite H, N. reflexivity.
Qed.

Lemma constructed_client_state_witness :
  base_url (self_after (@__init__ sample_ed25519 bare_env "http://ping.example///"
                          (Some "00") None)) = "http://ping.example" /\
  outcome (@__init__ sample_ed25519 bare_env "http://ping.example///" (Some "00") None) =
    Raise (PingError "PyNaCl not installed. Run: pip install pynacl" 500).
Proof.
  split.
  - apply (@constructed_client_state sample_ed25519 bare_env "http://ping.example///"
             (Some "00") None).
  - apply (@constructed_client_state sample_ed25519 bare_env "http://ping.example///"
             (Some "00") None) with (k := "00"); reflexivity.
Defined.

Lemma agent_id_perform {ed : Ed25519} (e : env) (k : call) (c : PingClient) :
  assigns_agent_id k = false -> agent_id (client_after e k c) = agent_id c.
Proof.
  intros N. unfold client_after.
  pose (J := fun c' : PingClient => agent_id c' = agent_id c).
  pose proof (agent_id_with_keys (agent_id c)) as JK.
  destruct k; try discriminate N; cbn [perform]; rewrite finish_self;
    first
      [ exact (inv_generate_keys J JK e c eq_refl)
      | exact (inv_set_keys J JK e _ c eq_refl)
      | exact (inv_public_key J c eq_refl) | exact (inv_get_agent J e _ c eq_refl)
      | exact (inv_directory J e c eq_refl)
      | exact (inv_search J e _ _ _ c eq_refl) | exact (inv_contacts J e c eq_refl)
      | exact (inv_add_contact J e _ _ _ c eq_refl)
      | exact (inv_remove_contact J e _ c eq_refl)
      | exact (inv_inbox J e _ c eq_refl) | exact (inv_history J e _ _ c eq_refl)
      | exact (inv_ack J e _ c eq_refl) | exact (inv_send J e _ _ _ _ c eq_refl) ].
Qed.

(** X13. No call changes [base_url], through any sequence of calls; and
    [agent_id] is changed by [register] and [delete_agent] only: every
    other call, failed or not, leaves it as it was. *)
Theorem base_url_and_agent_id_stability {ed : Ed25519} :
  (forall e k c, base_url (client_after e k c) = base_url c) /\
  (forall calls c, base_url (session calls c) = base_url c) /\
  (forall e k c, assigns_agent_id k = false ->
                 agent_id (client_after e k c) = agent_id c).
Proof.
  assert (B : forall e k c, base_url (client_after e k c) = base_url c).
  { intros e k c.
    exact (perform_keeps_all (fun c' => base_url c' = base_url c)
             (base_url_with_agent_id (base_url c)) (base_url_with_keys (base_url c))
             e k c eq_refl). }
  split; [exact B|]. split.
  - intros calls. induction calls as [|[e k] rest IH]; intros c; [reflexivity|].
    cbn [session]. rewrite IH. exact (B e k c).
  - intros e k c N. exact (agent_id_perform e k c N).
Qed.

Lemma base_url_and_agent_id_stability_witness :
  agent_id (@client_after sample_ed25519 refusing_env (Call_ping "agent-B") ready_client)
  = PyStr "agent-A".
Proof.
  apply (@base_url_and_agent_id_stability sample_ed25519). reflexivity.
Defined.

(** ** Directory search *)




(** ** Reading agents and messages *)

Lemma bind_ok {A B} (m : M A) (k : A -> M B) (c : PingClient) (b : B) :
  outcome (bind m k c) = Ok b ->
  exists a, outcome (m c) = Ok a /\ outcome (k a (self_after (m c))) = Ok b.
Proof.
  unfold bind, outcome, self_after.
  destruct (m c) as [[[a|ex] c1] t1]; cbn [fst snd]; [|discriminate].
  destruct (k a c1) as [[r c2] t2] eqn:K. cbn [fst snd]. intros H.
  exists a. split; [reflexivity|]. rewrite K. exact H.
Qed.

Lemma rbind_ok {A B} (r : result A) (k : A -> result B) (b : B) :
  rbind r k = Ok b -> exists a, r = Ok a /\ k a = Ok b.
Proof. destruct r as [a|ex]; [|discriminate]. intros H. exists a. split; [reflexivity|exact H]. Qed.

Lemma rmap_Forall2 {A B} (f : A -> result B) (l : list A) :
  forall ys, rmap f l = Ok ys -> Forall2 (fun x y => f x = Ok y) l ys.
Proof.
  induction l as [|x l IH]; intros ys H.
  - inversion H. constructor.
  - cbn [rmap] in H. apply rbind_ok in H. destruct H as (y & Hy & H).
    apply rbind_ok in H. destruct H as (ys' & Hys & H).
    inversion H; subst. constructor; [exact Hy|exact (IH ys' Hys)].
Qed.

Lemma getitem_ok (data : pyval) (k : string) (v : pyval) :
  getitem data k = Ok v -> exists d, data = PyDict d /\ dict_get k d = Some v.
Proof.
  destruct data; try discriminate. cbn [getitem].
  destruct (dict_get k items) eqn:E; [|discriminate].
  intros H. inversion H; subst. eexists. split; [reflexivity|exact E].
Qed.

(** X15. [get_agent] makes one GET for [/agents/<id>], needs neither
    registration nor keys, and leaves the client unchanged.  It returns an
    [Agent] exactly when the request succeeds with a JSON object that has
    the entries [id], [publicKey], [name] and [provider]; the other four
    attributes are optional, and an absent [capabilities] reads as the
    empty list. *)
Theorem get_agent_required_fields (e : env) (a : string) (c : PingClient) :
  self_after (get_agent e a c) = c /\
  effects (get_agent e a c) =
    [Requested (request_of c "GET" [PyStr "/agents/"; PyStr a] None)] /\
  ((exists ag, outcome (get_agent e a c) = Ok ag) <->
   (exists d,
      answer (urlopen e (request_of c "GET" [PyStr "/agents/"; PyStr a] None)) =
        Ok (PyDict d) /\
      has_key "id" d = true /\ has_key "publicKey" d = true /\
      has_key "name" d = true /\ has_key "provider" d = true)) /\
  (forall ag d,
     outcome (get_agent e a c) = Ok ag ->
     answer (urlopen e (request_of c "GET" [PyStr "/agents/"; PyStr a] None)) =
       Ok (PyDict d) ->
     dict_get "id" d = Some (id ag) /\
     (dict_get "capabilities" d = None -> capabilities ag = PyList [])).
Proof.
  assert (R : get_agent e a c =
              (match answer (urlopen e (request_of c "GET"
                                          [PyStr "/agents/"; PyStr a] None)) with
               | Ok data => Agent_of data
               | Raise ex => Raise ex
               end, c,
               [Requested (request_of c "GET" [PyStr "/agents/"; PyStr a] None)])).
  { unfold get_agent, _request, request_of, bind, get_self, emit, lift, ret.
    destruct (answer _); reflexivity. }
  rewrite R. cbn [self_after outcome effects fst snd].
  split; [reflexivity|]. split; [reflexivity|]. split; [split|].
  - intros [ag H]. destruct (answer _) as [data|ex]; [|discriminate].
    unfold Agent_of in H.
    apply rbind_ok in H. destruct H as (v1 & H1 & H).
    apply rbind_ok in H. destruct H as (v2 & H2 & H).
    apply rbind_ok in H. destruct H as (v3 & H3 & H).
    apply rbind_ok in H. destruct H as (v4 & H4 & _).
    destruct (getitem_ok _ _ _ H1) as (d & -> & G1).
    cbn [getitem] in H2, H3, H4. unfold has_key. exists d.
    rewrite G1.
    destruct (dict_get "publicKey" d); [|discriminate].
    destruct (dict_get "name" d); [|discriminate].
    destruct (dict_get "provider" d); [|discriminate].
    repeat split; reflexivity.
  - intros (d & A & K1 & K2 & K3 & K4). rewrite A.
    unfold has_key in *. unfold Agent_of, rbind, getitem, get_or.
    destruct (dict_get "id" d); [|discriminate].
    destruct (dict_get "publicKey" d); [|discriminate].
    destruct (dict_get "name" d); [|discriminate].
    destruct (dict_get "provider" d); [|discriminate].
    destruct (dict_get "capabilities" d), (dict_get "webhookUrl" d),
      (dict_get "isPublic" d), (dict_get "createdAt" d); eexists; reflexivity.
  - intros ag d H A. rewrite A in H.
    unfold Agent_of, rbind, getitem, get_or in H.
    destruct (dict_get "id" d); [|discriminate].
    destruct (dict_get "publicKey" d); [|discriminate].
    destruct (dict_get "name" d); [|discriminate].
    destruct (dict_get "provider" d); [|discriminate].
    destruct (dict_get "capabilities" d), (dict_get "webhookUrl" d),
      (dict_get "isPublic" d), (dict_get "createdAt" d);
      inversion H; subst; cbn; split; try reflexivity; intros; try discriminate; reflexivity.
Qed.

Lemma get_agent_required_fields_witness :
  ~ exists ag, outcome (get_agent sample_env "agent-B" fresh_client) = Ok ag.
Proof.
  intros H.
  apply (get_agent_required_fields sample_env "agent-B" fresh_client) in H.
  destruct H as (d & A & _ & K & _).
  cbn in A. inversion A; subst d. discriminate K.
Defined.

(** X16. [history] never reports a message as delivered or acknowledged:
    whatever the service answers, every [Message] it returns has both
    flags [False]; and it returns one [Message] per element of the answer,
    in order, with the [id] of that element. *)
Theorem history_drops_flags (e : env) (other_id : string) (limit : Z) (c : PingClient)
    (msgs : list Message) :
  outcome (history e other_id limit c) = Ok msgs ->
  Forall (fun m => delivered m = PyBool false /\ acknowledged m = PyBool false) msgs /\
  exists data items,
    answer (urlopen e (request_of c "GET"
                         [PyStr "/agents/"; agent_id c; PyStr "/messages/"; PyStr other_id;
                          PyStr "?limit="; PyInt limit] None)) = Ok data /\
    iterate data = Ok items /\
    Forall2 (fun item m => getitem item "id" = Ok (m_id m)) items msgs.
Proof.
  intros H. unfold history in H.
  apply bind_ok in H. destruct H as (u & Hu & H).
  assert (S1 : self_after (_require_agent c) = c).
  { unfold _require_agent, bind, get_self, raise, ret, self_after.
    destruct (negb _); reflexivity. }
  rewrite S1 in H. clear Hu S1 u.
  apply bind_ok in H. destruct H as (self & Hs & H).
  unfold get_self, outcome, self_after in Hs, H. cbn [fst snd] in Hs, H.
  inversion Hs; subst self. clear Hs.
  fold (@outcome (list Message)) in H.
  change (snd (fst ?x)) with (self_after x) in H.
  apply bind_ok in H. destruct H as (data & Hd & H).
  destruct (request_behaviour e "GET"
              [PyStr "/agents/"; agent_id c; PyStr "/messages/"; PyStr other_id;
               PyStr "?limit="; PyInt limit] None c) as (Sc & R & _).
  rewrite Sc in H. rewrite R in Hd. cbn [outcome fst] in Hd.
  apply bind_ok in H. destruct H as (items & Hi & H).
  cbn [lift outcome self_after fst snd] in Hi, H.
  pose proof (rmap_Forall2 _ _ _ H) as F.
  split.
  - clear - F. induction F as [|x m l ms Hx _ IH]; constructor; [|exact IH].
    unfold Message_of in Hx.
    do 8 (apply rbind_ok in Hx; destruct Hx as (? & _ & Hx)).
    cbn [rbind] in Hx. inversion Hx; subst. split; reflexivity.
  - exists data, items. split; [exact Hd|]. split; [exact Hi|].
    clear - F. induction F as [|x m l ms Hx _ IH]; constructor; [|exact IH].
    unfold Message_of in Hx.
    apply rbind_ok in Hx. destruct Hx as (v & Hv & Hx).
    repeat (apply rbind_ok in Hx; destruct Hx as (? & _ & Hx)).
    inversion Hx; subst. exact Hv.
Qed.

Lemma history_drops_flags_witness :
  exists msgs,
    outcome (history history_env "agent-B" 50 ready_client) = Ok msgs /\
    Forall (fun m => delivered m = PyBool false /\ acknowledged m = PyBool false) msgs.
Proof.
  eexists. split; [reflexivity|].
  apply (history_drops_flags history_env "agent-B" 50 ready_client). reflexivity.
Defined.

(** X17. [inbox] asks for [/agents/<id>/inbox], with [?all=true] when
    [include_all] is set, and returns one [Message] per element of the
    answer, in order, with the [id] of that element and with the flags
    [delivered] and [acknowledged] the element carries, [False] when it
    carries none. *)
Theorem inbox_reads_flags (e : env) (include_all : bool) (c : PingClient)
    (msgs : list Message) :
  outcome (inbox e include_all c) = Ok msgs ->
  exists data items,
    answer (urlopen e (request_of c "GET"
                         ([PyStr "/agents/"; agent_id c; PyStr "/inbox"] ++
                          (if include_all then [PyStr "?all=true"] else []))%list None))
      = Ok data /\
    iterate data = Ok items /\
    Forall2 (fun item m =>
               getitem item "id" = Ok (m_id m) /\
               get_or item "delivered" (PyBool false) = Ok (delivered m) /\
               get_or item "acknowledged" (PyBool false) = Ok (acknowledged m))
            items msgs.
Proof.
  intros H. unfold inbox in H.
  apply bind_ok in H. destruct H as (u & Hu & H).
  assert (S1 : self_after (_require_agent c) = c).
  { unfold _require_agent, bind, get_self, raise, ret, self_after.
    destruct (negb _); reflexivity. }
  rewrite S1 in H. clear Hu S1 u.
  apply bind_ok in H. destruct H as (self & Hs & H).
  unfold get_self, outcome, self_after in Hs, H. cbn [fst snd] in Hs, H.
  inversion Hs; subst self. clear Hs.
  fold (@outcome (list Message)) in H.
  change (snd (fst ?x)) with (self_after x) in H.
  cbv zeta in H.
  apply bind_ok in H. destruct H as (data & Hd & H).
  destruct (request_behaviour e "GET"
              ([PyStr "/agents/"; agent_id c; PyStr "/inbox"] ++
               (if include_all then [PyStr "?all=true"] else []))%list None c)
    as (Sc & R & _).
  rewrite Sc in H. rewrite R in Hd. cbn [outcome fst] in Hd.
  apply bind_ok in H. destruct H as (items & Hi & H).
  cbn [lift outcome self_after fst snd] in Hi, H.
  pose proof (rmap_Forall2 _ _ _ H) as F.
  exists data, items. split; [exact Hd|]. split; [exact Hi|].
  clear - F. induction F as [|x m l ms Hx _ IH]; constructor; [|exact IH].
  unfold Message_of in Hx.
  apply rbind_ok in Hx. destruct Hx as (v & Hv & Hx).
  do 7 (apply rbind_ok in Hx; destruct Hx as (? & _ & Hx)).
  apply rbind_ok in Hx. destruct Hx as (v8 & H8 & Hx).
  apply rbind_ok in Hx. destruct Hx as (v9 & H9 & Hx).
  inversion Hx; subst. repeat split; assumption.
Qed.

Lemma inbox_reads_flags_witness :
  exists msgs,
    outcome (inbox history_env true ready_client) = Ok msgs /\
    exists data items,
      answer (urlopen history_env
                (request_of ready_client "GET"
                   [PyStr "/agents/"; PyStr "agent-A"; PyStr "/inbox"; PyStr "?all=true"]
                   None)) = Ok data /\
      iterate data = Ok items /\
      Forall2 (fun item m =>
                 getitem item "id" = Ok (m_id m) /\
                 get_or item "delivered" (PyBool false) = Ok (delivered m) /\
                 get_or item "acknowledged" (PyBool false) = Ok (acknowledged m))
              items msgs.
Proof.
  eexists. split; [reflexivity|].
  apply (inbox_reads_flags history_env true ready_client). reflexivity.
Defined.

(** ** The text of the signature *)

Lemma hexlify_lower (bs : bytes) : all_chars is_lower_hex (hexlify bs) = true.
Proof.
  induction bs as [|b bs IH]; [reflexivity|].
  cbn [hexlify]. rewrite all_chars_app, IH, andb_true_r.
  destruct b; reflexivity.
Qed.

(** X18. When [_sign] returns, its result is the lowercase hexadecimal
    text of the detached signature of the UTF-8 bytes of
    [json.dumps(message)] under the held key: two digits per byte of the
    signature, and no other character. *)
Theorem sign_returns_lowercase_hex {ed : Ed25519} (message : dict) (c : PingClient)
    (s : string) :
  outcome (_sign message c) = Ok s ->
  all_chars is_lower_hex s = true /\
  exists key text,
    _signing_key c = Some key /\
    json_dumps (PyDict message) = Ok text /\
    s = hexlify (crypto_sign_detached (encode_utf8 text) (_seed key)) /\
    String.length s = 2 * length (crypto_sign_detached (encode_utf8 text) (_seed key)) /\
    self_after (_sign message c) = c.
Proof.
  intros H.
  destruct (json_dumps (PyDict message)) as [text|ex] eqn:D.
  2:{ rewrite (_sign_raises c message ex D) in H. discriminate H. }
  destruct (_signing_key c) as [key|] eqn:K.
  - rewrite (_sign_ok c message key text K D) in *.
    cbn [outcome fst] in H. inversion H; subst s.
    split; [apply hexlify_lower|].
    exists key, text. unfold SigningKey_sign.
    repeat split; try reflexivity. apply hexlify_length.
  - unfold _sign, dumps, bind, emit, lift, get_self, raise in H.
    rewrite D, K in H. discriminate H.
Qed.

Lemma sign_returns_lowercase_hex_witness :
  exists s,
    outcome (@_sign sample_ed25519 [("type", PyStr "ping")] ready_client) = Ok s /\
    all_chars is_lower_hex s = true.
Proof.
  eexists. split; [reflexivity|].
  apply (@sign_returns_lowercase_hex sample_ed25519 [("type", PyStr "ping")] ready_client).
  reflexivity.
Defined.

Lemma request_behaviour_witness :
  exists message,
    answer (urlopen refusing_env (request_of fresh_client "GET" [PyStr "/directory"] None))
    = Raise (PingError message 403).
Proof.
  apply (request_behaviour refusing_env "GET" [PyStr "/directory"] None fresh_client)
    with (str_e := "HTTP Error 403: Forbidden") (error_body := Some (Some "forbidden")).
  reflexivity.
Defined.

(** ** Payloads that serialize *)



